(** * ZMK Studio keymap export: HID usage resolver, behavior formatter,
      keymap text generator

    A shallow embedding of the export pipeline of zmk-studio
    ([src/export]) and the properties its specification states about it.

    Conventions of the embedding.
    - A JavaScript [number] that holds an integer (usage codes, behavior
      ids, parameters, positions) is a [Z]; the bit operations of the
      usage decoding are [Z.shiftr] and [Z.land], which agree with the
      32-bit operators [>>] and [&] on the sixteen bits they keep.
      Numbers are printed with all their digits, as JavaScript prints the
      integers it holds exactly.
    - A JavaScript string is a [string], read as its UTF-8 bytes.  The
      regular expressions of the sources only single out ASCII characters
      and every run of replaced characters is collapsed before it is
      observed, so the byte reading and the UTF-16 reading give the same
      result.
    - [string | null] (and [undefined]) is [option string]; the
      truthiness tests [!x] and [x || y] treat [None] and the empty string
      alike, and are written out.
    - An object literal used as a table ([Record<string, string>]) is a
      [gmap] holding its own keys, as its type says; the properties every
      object inherits are not labels of a usage database.
    - A call to a collaborator that is passed in or imported (the usage
      label database, the key-name resolver) is recorded in a call log, so
      that "is not consulted" is a statement about the log. *)

From Stdlib Require Import ZArith String Ascii List DecimalString HexadecimalString.
From Stdlib Require Import Sorting.Sorted Sorting.Permutation.
From stdpp Require Import base gmap strings list relations.

Open Scope string_scope.
Open Scope Z_scope.

(** ** JavaScript string primitives used by the sources *)
Module JS.

Definition charCode (c : ascii) : N := N_of_ascii c.

Definition isUpper (c : ascii) : bool :=
  ((65 <=? charCode c) && (charCode c <=? 90))%N.
Definition isLower (c : ascii) : bool :=
  ((97 <=? charCode c) && (charCode c <=? 122))%N.
Definition isDigit (c : ascii) : bool :=
  ((48 <=? charCode c) && (charCode c <=? 57))%N.

(** the class [[a-zA-Z0-9]] *)
Definition isAlnum (c : ascii) : bool := isLower c || isUpper c || isDigit c.

Definition isUnderscore (c : ascii) : bool := Ascii.eqb c "_".

(** the double quote, which no literal of this file spells *)
Definition dquote : string := String (ascii_of_nat 34) "".

Definition isEmpty (s : string) : bool :=
  match s with "" => true | String _ _ => false end.

(** [!x] for [x : string | null | undefined] *)
Definition falsy (x : option string) : bool :=
  match x with None => true | Some s => isEmpty s end.

(** [x || d] for [x : string | null] and a string [d] *)
Definition orElse (x : option string) (d : string) : string :=
  match x with
  | None => d
  | Some s => if isEmpty s then d else s
  end.

(** [x || null] *)
Definition orNull (x : option string) : option string :=
  if falsy x then None else x.

(** [n.toString()] and [n.toString(16)] on an integer *)
Definition toString (n : Z) : string :=
  DecimalString.NilZero.string_of_int (Z.to_int n).
Definition toString16 (n : Z) : string :=
  HexadecimalString.NilZero.string_of_int (Z.to_hex_int n).

(** [/^[A-Z]$/.test(s)] *)
Definition testSingleUpper (s : string) : bool :=
  match s with
  | String c "" => isUpper c
  | _ => false
  end.

(** [s.replace(/^Keyboard /, '')] *)
Definition stripKeyboardPrefix (s : string) : string :=
  if String.prefix "Keyboard " s
  then String.substring 9 (String.length s - 9) s
  else s.

(** [s.replace(/[^a-zA-Z0-9]/g, '_')] *)
Fixpoint replaceNonAlnum (s : string) : string :=
  match s with
  | "" => ""
  | String c s' =>
      String (if isAlnum c then c else "_"%char) (replaceNonAlnum s')
  end.

Definition startsWithUnderscore (s : string) : bool :=
  match s with
  | String c _ => isUnderscore c
  | "" => false
  end.

(** [s.replace(/_+/g, '_')] *)
Fixpoint collapseUnderscores (s : string) : string :=
  match s with
  | "" => ""
  | String c s' =>
      if isUnderscore c && startsWithUnderscore s'
      then collapseUnderscores s'
      else String c (collapseUnderscores s')
  end.

Definition dropLeadingUnderscore (s : string) : string :=
  match s with
  | String c s' => if isUnderscore c then s' else s
  | "" => ""
  end.

Fixpoint dropTrailingUnderscore (s : string) : string :=
  match s with
  | "" => ""
  | String c s' =>
      match s' with
      | "" => if isUnderscore c then "" else s
      | String _ _ => String c (dropTrailingUnderscore s')
      end
  end.

(** [s.replace(/^_|_$/g, '')]: the first alternative can only match at
    offset 0, the second only at the last character of what is left *)
Definition trimUnderscoreEnds (s : string) : string :=
  dropTrailingUnderscore (dropLeadingUnderscore s).

Definition upperChar (c : ascii) : ascii :=
  if isLower c then ascii_of_N (charCode c - 32) else c.
Definition lowerChar (c : ascii) : ascii :=
  if isUpper c then ascii_of_N (charCode c + 32) else c.

Fixpoint mapChars (f : ascii → ascii) (s : string) : string :=
  match s with
  | "" => ""
  | String c s' => String (f c) (mapChars f s')
  end.

(** [s.toUpperCase()] and [s.toLowerCase()]; the sources apply them
    after [replaceNonAlnum], to strings over [[A-Za-z0-9_]] only, where
    the case mapping is the ASCII one *)
Definition toUpperCase : string → string := mapChars upperChar.
Definition toLowerCase : string → string := mapChars lowerChar.

Fixpoint allChars (p : ascii → bool) (s : string) : bool :=
  match s with
  | "" => true
  | String c s' => p c && allChars p s'
  end.

(** [arr.join(sep)] *)
Fixpoint join (sep : string) (l : list string) : string :=
  match l with
  | [] => ""
  | [x] => x
  | x :: l' => x +:+ sep +:+ join sep l'
  end.

(** [/^N[0-9]$/.test(s)] *)
Definition testNDigit (s : string) : bool :=
  match s with
  | String c (String d "") => Ascii.eqb c "N" && isDigit d
  | _ => false
  end.

(** [/^F[0-9]+$/.test(s)] *)
Definition testFDigits (s : string) : bool :=
  match s with
  | String c rest => Ascii.eqb c "F" && negb (isEmpty rest) && allChars isDigit rest
  | "" => false
  end.

(** [s.startsWith('F')] *)
Definition startsWithF (s : string) : bool :=
  match s with
  | String c _ => Ascii.eqb c "F"
  | "" => false
  end.

(** [arr.includes(s)] on an array of strings *)
Definition includes (arr : list string) (s : string) : bool :=
  existsb (String.eqb s) arr.

End JS.

(** ** Call logs *)
Module CallLog.

Record Logged (E A : Type) : Type := Log { value : A; calls : list E }.
Arguments Log {E A} _ _.
Arguments value {E A} _.
Arguments calls {E A} _.

Definition ret {E A : Type} (a : A) : Logged E A := Log a [].

Definition bind {E A B : Type} (m : Logged E A) (k : A → Logged E B)
  : Logged E B :=
  let r := k (value m) in Log (value r) (calls m ++ calls r).

(** calling the collaborator [f] on [x] *)
Definition call {X A : Type} (f : X → A) (x : X) : Logged X A := Log (f x) [x].

End CallLog.

Import CallLog.

Notation "'let*' x ':=' m 'in' k" := (CallLog.bind m (fun x => k))
  (at level 10, x name, m at level 100, k at level 200).

(** ** ../hid-usages *)
Module HidUsages.

(** Modelled from the spec: [hid_usage_page_and_id_from_usage] of
    [../hid-usages], which is not among the sources.  "a 32-bit-range
    integer composed as (page << 16) | id, where page and id are each
    16-bit unsigned values.  Decoding is a pure bit-shift/mask". *)
Definition hid_usage_page_and_id_from_usage (usage : Z) : Z * Z :=
  (Z.land (Z.shiftr usage 16) 0xFFFF, Z.land usage 0xFFFF).

(** the helper of the tests: [(page << 16) + id] *)
Definition hid (page id : Z) : Z := Z.shiftl page 16 + id.

End HidUsages.

Import HidUsages.

(** ** ./types: the key code record *)
Module Types.

(** the union ['letter' | 'number' | 'modifier' | 'function' | 'special'] *)
Inductive Category : Type :=
| KLetter | KNumber | KModifier | KFunction | KSpecial.

Record KeyCode : Type := {
  hidUsage : Z;
  zmkName : string;
  label : string;
  category : Category
}.

End Types.

(** ** HidMapper.ts

    The [HidMapper] that the tests exercise and the specification
    describes: modifier usages are named from a table of their own, and
    the override table is keyed by the short labels of the usage
    database. *)
Module HidMapper.

Definition HID_PAGE_KEYBOARD : Z := 0x07.
Definition HID_PAGE_CONSUMER : Z := 0x0C.

Definition KEY_NAME_OVERRIDES : gmap string string :=
  list_to_map
    [ ("1", "N1"); ("2", "N2"); ("3", "N3"); ("4", "N4"); ("5", "N5");
      ("6", "N6"); ("7", "N7"); ("8", "N8"); ("9", "N9"); ("0", "N0");
      ("␣", "SPACE"); ("Ret", "ENTER"); ("ESC", "ESC"); ("BkSp", "BSPC");
      ("TAB", "TAB"); ("CAPS", "CAPS");
      ("Ctrl", "LCTRL"); ("Shft", "LSHFT"); ("Alt", "LALT");
      ("GUI", "LGUI"); ("AltG", "RALT");
      ("→", "RIGHT"); ("←", "LEFT"); ("↓", "DOWN"); ("↑", "UP");
      ("F1", "F1"); ("F2", "F2"); ("F3", "F3"); ("F4", "F4");
      ("F5", "F5"); ("F6", "F6"); ("F7", "F7"); ("F8", "F8");
      ("F9", "F9"); ("F10", "F10"); ("F11", "F11"); ("F12", "F12");
      ("HOME", "HOME"); ("END", "END"); ("PGUP", "PG_UP");
      ("PGDN", "PG_DN"); ("INS", "INS"); ("DEL", "DEL");
      ("-", "MINUS"); ("=", "EQUAL"); ("{", "LBKT"); ("}", "RBKT");
      ("\", "BSLH"); (";", "SEMI"); ("'", "SQT"); ("`", "GRAVE");
      (",", "COMMA"); (".", "DOT"); ("/", "FSLH") ].

(** the object literal [modifierMap] of [getZmkKeyName] *)
Definition modifierMap : gmap Z string :=
  list_to_map
    [ (0xE0, "LCTRL"); (0xE1, "LSHFT"); (0xE2, "LALT"); (0xE3, "LGUI");
      (0xE4, "RCTRL"); (0xE5, "RSHFT"); (0xE6, "RALT"); (0xE7, "RGUI") ].

(** the chain of replacements that ends [getZmkKeyName] *)
Definition fallbackName (label : string) : string :=
  let cleanLabel := JS.stripKeyboardPrefix label in
  JS.toUpperCase
    (JS.trimUnderscoreEnds
       (JS.collapseUnderscores (JS.replaceNonAlnum cleanLabel))).

(** the array literal of [isModifier] and of [categorizeKey] *)
Definition modifierNames : list string :=
  ["LCTRL"; "LSHFT"; "LALT"; "LGUI"; "RCTRL"; "RSHFT"; "RALT"; "RGUI"].

Definition categorizeKey (zmkName : string) : Types.Category :=
  if JS.testSingleUpper zmkName then Types.KLetter
  else if JS.testNDigit zmkName || JS.testFDigits zmkName
  then (if JS.startsWithF zmkName then Types.KFunction else Types.KNumber)
  else if JS.includes modifierNames zmkName then Types.KModifier
  else Types.KSpecial.

Section WithDatabase.

(** [hid_usage_get_label] of [../hid-usages], the usage-name database *)
Variable hid_usage_get_label : Z → Z → option string.

Definition getLabel (page id : Z) : Logged (Z * Z) (option string) :=
  call (fun pi : Z * Z => hid_usage_get_label pi.1 pi.2) (page, id).

Definition getZmkKeyName (hidUsage : Z) : Logged (Z * Z) (option string) :=
  let '(page, id) := hid_usage_page_and_id_from_usage hidUsage in
  if negb (page =? HID_PAGE_KEYBOARD) && negb (page =? HID_PAGE_CONSUMER)
  then ret None
  else if (page =? HID_PAGE_KEYBOARD) && (0xE0 <=? id) && (id <=? 0xE7)
  then ret (JS.orNull (modifierMap !! id))
  else
    let* label := getLabel page id in
    match label with
    | None => ret None
    | Some label =>
        if JS.isEmpty label then ret None
        else if negb (JS.falsy (KEY_NAME_OVERRIDES !! label))
        then ret (KEY_NAME_OVERRIDES !! label)
        else if JS.testSingleUpper label then ret (Some label)
        else ret (Some (fallbackName label))
    end.

Definition getKeyCode (hidUsage : Z)
  : Logged (Z * Z) (option Types.KeyCode) :=
  let* zmkName := getZmkKeyName hidUsage in
  match zmkName with
  | None => ret None
  | Some zmkName =>
      if JS.isEmpty zmkName then ret None
      else
        let '(page, id) := hid_usage_page_and_id_from_usage hidUsage in
        let* label := getLabel page id in
        ret (Some {| Types.hidUsage := hidUsage;
                     Types.zmkName := zmkName;
                     Types.label := JS.orElse label "";
                     Types.category := categorizeKey zmkName |})
  end.

Definition isModifier (hidUsage : Z) : Logged (Z * Z) bool :=
  let* keyName := getZmkKeyName hidUsage in
  match keyName with
  | None => ret false
  | Some keyName =>
      if JS.isEmpty keyName then ret false
      else ret (JS.includes modifierNames keyName)
  end.

End WithDatabase.

End HidMapper.

(** ** HidMapper.ts, keyed by the long usage names

    The second [HidMapper] source: no table for the modifier usages, and
    an override table keyed by the long labels of the HID usage tables. *)
Module HidMapper0.

Definition HID_PAGE_KEYBOARD : Z := 0x07.
Definition HID_PAGE_CONSUMER : Z := 0x0C.

Definition KEY_NAME_OVERRIDES : gmap string string :=
  list_to_map
    [ ("1 and !", "N1"); ("2 and @", "N2"); ("3 and #", "N3");
      ("4 and $", "N4"); ("5 and %", "N5"); ("6 and ^", "N6");
      ("7 and &", "N7"); ("8 and *", "N8"); ("9 and (", "N9");
      ("0 and )", "N0");
      ("Spacebar", "SPACE"); ("Keyboard Return (ENTER)", "ENTER");
      ("Keyboard Escape", "ESC"); ("Keyboard Delete (Backspace)", "BSPC");
      ("Keyboard Tab", "TAB"); ("Keyboard Caps Lock", "CAPS");
      ("Keyboard Left Control", "LCTRL"); ("Keyboard Left Shift", "LSHFT");
      ("Keyboard Left Alt", "LALT"); ("Keyboard Left GUI", "LGUI");
      ("Keyboard Right Control", "RCTRL"); ("Keyboard Right Shift", "RSHFT");
      ("Keyboard Right Alt", "RALT"); ("Keyboard Right GUI", "RGUI");
      ("Keyboard Right Arrow", "RIGHT"); ("Keyboard Left Arrow", "LEFT");
      ("Keyboard Down Arrow", "DOWN"); ("Keyboard Up Arrow", "UP");
      ("Keyboard F1", "F1"); ("Keyboard F2", "F2"); ("Keyboard F3", "F3");
      ("Keyboard F4", "F4"); ("Keyboard F5", "F5"); ("Keyboard F6", "F6");
      ("Keyboard F7", "F7"); ("Keyboard F8", "F8"); ("Keyboard F9", "F9");
      ("Keyboard F10", "F10"); ("Keyboard F11", "F11");
      ("Keyboard F12", "F12");
      ("Keyboard Home", "HOME"); ("Keyboard End", "END");
      ("Keyboard Page Up", "PG_UP"); ("Keyboard Page Down", "PG_DN");
      ("Keyboard Insert", "INS"); ("Keyboard Delete Forward", "DEL");
      ("- and _", "MINUS"); ("= and +", "EQUAL"); ("[ and {", "LBKT");
      ("] and }", "RBKT"); ("\ and |", "BSLH"); ("; and :", "SEMI");
      ("' and " +:+ JS.dquote, "SQT"); ("` and ~", "GRAVE");
      (", and <", "COMMA"); (". and >", "DOT"); ("/ and ?", "FSLH") ].

Definition fallbackName (label : string) : string :=
  let cleanLabel := JS.stripKeyboardPrefix label in
  JS.toUpperCase
    (JS.trimUnderscoreEnds
       (JS.collapseUnderscores (JS.replaceNonAlnum cleanLabel))).

(** the array literal of [isModifier] and of [categorizeKey] *)
Definition modifierNames : list string :=
  ["LCTRL"; "LSHFT"; "LALT"; "LGUI"; "RCTRL"; "RSHFT"; "RALT"; "RGUI"].

Definition categorizeKey (zmkName : string) : Types.Category :=
  if JS.testSingleUpper zmkName then Types.KLetter
  else if JS.testNDigit zmkName || JS.testFDigits zmkName
  then (if JS.startsWithF zmkName then Types.KFunction else Types.KNumber)
  else if JS.includes modifierNames zmkName then Types.KModifier
  else Types.KSpecial.

Section WithDatabase.

Variable hid_usage_get_label : Z → Z → option string.

Definition getLabel (page id : Z) : Logged (Z * Z) (option string) :=
  call (fun pi : Z * Z => hid_usage_get_label pi.1 pi.2) (page, id).

Definition getZmkKeyName (hidUsage : Z) : Logged (Z * Z) (option string) :=
  let '(page, id) := hid_usage_page_and_id_from_usage hidUsage in
  if negb (page =? HID_PAGE_KEYBOARD) && negb (page =? HID_PAGE_CONSUMER)
  then ret None
  else
    let* label := getLabel page id in
    match label with
    | None => ret None
    | Some label =>
        if JS.isEmpty label then ret None
        else if negb (JS.falsy (KEY_NAME_OVERRIDES !! label))
        then ret (KEY_NAME_OVERRIDES !! label)
        else if JS.testSingleUpper label then ret (Some label)
        else ret (Some (fallbackName label))
    end.

Definition getKeyCode (hidUsage : Z)
  : Logged (Z * Z) (option Types.KeyCode) :=
  let* zmkName := getZmkKeyName hidUsage in
  match zmkName with
  | None => ret None
  | Some zmkName =>
      if JS.isEmpty zmkName then ret None
      else
        let '(page, id) := hid_usage_page_and_id_from_usage hidUsage in
        let* label := getLabel page id in
        ret (Some {| Types.hidUsage := hidUsage;
                     Types.zmkName := zmkName;
                     Types.label := JS.orElse label "";
                     Types.category := categorizeKey zmkName |})
  end.

Definition isModifier (hidUsage : Z) : Logged (Z * Z) bool :=
  let* keyName := getZmkKeyName hidUsage in
  match keyName with
  | None => ret false
  | Some keyName =>
      if JS.isEmpty keyName then ret false
      else ret (JS.includes modifierNames keyName)
  end.

End WithDatabase.

End HidMapper0.


(** ** BehaviorMapper.ts *)
Module BehaviorMapper.

(** [Behavior] and [Binding] of [./types] *)
Record Behavior : Type := {
  id : Z;
  code : string;
  displayName : string;
  paramCount : Z;
  description : string
}.

Record Binding : Type := {
  behaviorId : Z;
  param1 : Z;
  param2 : option Z;   (* [null] and [undefined] are [None] *)
  position : Z
}.

(** the entries of the [Map] literal [BEHAVIORS] *)
Definition BEHAVIORS_entries : list (Z * Behavior) :=
  [ (0, {| id := 0; code := "trans"; displayName := "Transparent";
           paramCount := 0; description := "Pass through to lower layer" |});
    (1, {| id := 1; code := "kp"; displayName := "Key Press";
           paramCount := 1; description := "Basic key press" |});
    (2, {| id := 2; code := "mt"; displayName := "Mod-Tap";
           paramCount := 2;
           description := "Modifier when held, key when tapped" |});
    (3, {| id := 3; code := "lt"; displayName := "Layer-Tap";
           paramCount := 2;
           description := "Layer when held, key when tapped" |});
    (4, {| id := 4; code := "mo"; displayName := "Momentary Layer";
           paramCount := 1; description := "Activate layer while held" |});
    (5, {| id := 5; code := "tog"; displayName := "Toggle Layer";
           paramCount := 1; description := "Toggle layer on/off" |});
    (6, {| id := 6; code := "bt"; displayName := "Bluetooth";
           paramCount := 1; description := "Bluetooth control" |}) ].

(** the registry as a value: behavior id to behavior record *)
Definition BEHAVIORS : gmap Z Behavior := list_to_map BEHAVIORS_entries.

Definition hexMarker (value : Z) : string :=
  "/* HID 0x" +:+ JS.toString16 value +:+ " */".

(** The methods read the registry through [BEHAVIORS.get]; they are
    written once over that lookup, and instantiated below on the
    registry value and on the object store. *)
Section Methods.

Variable BEHAVIORS_get : Z → option Behavior.
Variable getKeyName : Z → option string.

Definition formatParam (value : Z) (behavior : Behavior) : Logged Z string :=
  if (code behavior =? "kp")%string || (code behavior =? "mt")%string
  then
    let* keyName := call getKeyName value in
    ret (JS.orElse keyName (hexMarker value))
  else if (code behavior =? "mo")%string || (code behavior =? "tog")%string
  then ret (JS.toString value)
  else ret (JS.toString value).

Definition formatBinding (binding : Binding) : Logged Z string :=
  match BEHAVIORS_get (behaviorId binding) with
  | None =>
      ret ("/* Unknown behavior " +:+ JS.toString (behaviorId binding)
           +:+ " */")
  | Some behavior =>
      if (code behavior =? "trans")%string then ret "&trans"
      else if paramCount behavior =? 1 then
        let* param := formatParam (param1 binding) behavior in
        ret ("&" +:+ code behavior +:+ " " +:+ param)
      else if paramCount behavior =? 2 then
        if (code behavior =? "lt")%string then
          let layerNum := JS.toString (param1 binding) in
          let* keyName :=
            (match param2 binding with
             | Some p2 =>
                 let* k := call getKeyName p2 in
                 ret (JS.orElse k (hexMarker p2))
             | None => ret "/* missing key */"
             end) in
          ret ("&lt " +:+ layerNum +:+ " " +:+ keyName)
        else
          let* p1 := formatParam (param1 binding) behavior in
          let* p2 :=
            (match param2 binding with
             | Some v => formatParam v behavior
             | None => ret "/* missing param2 */"
             end) in
          ret ("&" +:+ code behavior +:+ " " +:+ p1 +:+ " " +:+ p2)
      else ret ("&" +:+ code behavior)
  end.


Definition getBehaviorCode (behaviorId : Z) : option string :=
  match BEHAVIORS_get behaviorId with
  | Some behavior => Some (code behavior)
  | None => None
  end.


Definition getParamCount (behaviorId : Z) : Z :=
  match BEHAVIORS_get behaviorId with
  | Some behavior => paramCount behavior
  | None => 0
  end.

End Methods.

(** the methods on the registry as initialised *)
Definition format (getKeyName : Z → option string) (binding : Binding)
  : Logged Z string :=
  formatBinding (fun k => BEHAVIORS !! k) getKeyName binding.


(** *** The registry as an object

    [BEHAVIORS] is a [Map] object whose values are references to the
    behavior records; [new Map(BEHAVIORS)] allocates a second [Map] with
    the same entries, that is, with references to the same records. *)

Abbreviation loc := positive (only parsing).

Inductive object : Type :=
| BehaviorObj (b : Behavior)
| MapObj (entries : gmap Z positive).

Abbreviation store := (gmap positive object) (only parsing).

(** module initialisation: the seven records, then the [Map] *)
Definition record_refs : list (Z * loc) :=
  [ (0, 1%positive); (1, 2%positive); (2, 3%positive); (3, 4%positive);
    (4, 5%positive); (5, 6%positive); (6, 7%positive) ].

Definition BEHAVIORS_ref : loc := 8%positive.

Definition initial : store :=
  <[ BEHAVIORS_ref := MapObj (list_to_map record_refs) ]>
    (list_to_map
       (zip (map snd record_refs)
            (map (fun e => BehaviorObj (snd e)) BEHAVIORS_entries))).

Definition entriesOf (σ : store) (m : loc) : gmap Z positive :=
  match σ !! m with
  | Some (MapObj e) => e
  | _ => ∅
  end.

(** [m.get(k)] *)
Definition Map_get (σ : store) (m : loc) (k : Z) : option loc :=
  entriesOf σ m !! k.

Definition deref (σ : store) (r : loc) : option Behavior :=
  match σ !! r with
  | Some (BehaviorObj b) => Some b
  | _ => None
  end.

(** [BEHAVIORS.get(k)], followed to the record *)
Definition BEHAVIORS_get (σ : store) (k : Z) : option Behavior :=
  Map_get σ BEHAVIORS_ref k ≫= deref σ.

(** [getAllBehaviors()]: [new Map(BEHAVIORS)] *)
Definition getAllBehaviors (σ : store) : loc * store :=
  let m := fresh (dom σ) in
  (m, <[ m := MapObj (entriesOf σ BEHAVIORS_ref) ]> σ).

(** what a caller can do with a [Map] it holds: [m.set(k, v)],
    [m.delete(k)], [m.clear()] *)
Definition Map_set (m : loc) (k : Z) (v : loc) (σ : store) : store :=
  match σ !! m with
  | Some (MapObj e) => <[ m := MapObj (<[ k := v ]> e) ]> σ
  | _ => σ
  end.

Definition Map_delete (m : loc) (k : Z) (σ : store) : store :=
  match σ !! m with
  | Some (MapObj e) => <[ m := MapObj (delete k e) ]> σ
  | _ => σ
  end.

Definition Map_clear (m : loc) (σ : store) : store :=
  match σ !! m with
  | Some (MapObj _) => <[ m := MapObj ∅ ]> σ
  | _ => σ
  end.

(** a caller's own record, [{ id: ..., code: ..., ... }] *)
Definition newBehavior (b : Behavior) (σ : store) : loc * store :=
  let r := fresh (dom σ) in (r, <[ r := BehaviorObj b ]> σ).

(** [r.code = s] on a record [r] *)
Definition writeCode (r : loc) (s : string) (σ : store) : store :=
  match σ !! r with
  | Some (BehaviorObj b) =>
      <[ r := BehaviorObj {| id := id b; code := s;
                             displayName := displayName b;
                             paramCount := paramCount b;
                             description := description b |} ]> σ
  | _ => σ
  end.

(** A caller of [getAllBehaviors]: the store, and the mappings it has
    been handed so far.  The caller takes copies, builds records of its
    own, and mutates the mappings it was handed. *)
Inductive caller_step :
  gmap positive object * gset positive →
  gmap positive object * gset positive → Prop :=
| step_getAllBehaviors σ R :
    caller_step (σ, R)
      ((getAllBehaviors σ).2, {[ (getAllBehaviors σ).1 ]} ∪ R)
| step_newBehavior σ R b :
    caller_step (σ, R) ((newBehavior b σ).2, R)
| step_set σ R m k v :
    m ∈ R → caller_step (σ, R) (Map_set m k v σ, R)
| step_delete σ R m k :
    m ∈ R → caller_step (σ, R) (Map_delete m k σ, R)
| step_clear σ R m :
    m ∈ R → caller_step (σ, R) (Map_clear m σ, R).

(** the methods on the registry object of a store *)
Definition formatIn (σ : store) (getKeyName : Z → option string)
    (binding : Binding) : Logged Z string :=
  formatBinding (BEHAVIORS_get σ) getKeyName binding.

End BehaviorMapper.


(** ** KeymapGenerator.ts

    Only the tests of the generator are among the sources; the functions
    the properties below need are modelled from the specification. *)
Module KeymapGenerator.

Import BehaviorMapper.

(** [Layer] of [./types] *)
Record Layer : Type := {
  id : Z;
  label : string;
  bindings : list Binding
}.

(** Modelled from the spec: the first step of [identifierFromLabel],
    "replace every maximal run of non-alphanumeric characters with a
    single underscore".  [inRun] tells that the previous character was
    already part of the run being replaced. *)
Fixpoint collapseRuns (inRun : bool) (s : string) : string :=
  match s with
  | "" => ""
  | String c s' =>
      if JS.isAlnum c then String c (collapseRuns false s')
      else if inRun then collapseRuns true s'
      else String "_"%char (collapseRuns true s')
  end.

(** Modelled from the spec: the second step of [identifierFromLabel],
    "trim leading/trailing underscores". *)
Fixpoint trimLeading (s : string) : string :=
  match s with
  | "" => ""
  | String c s' => if JS.isUnderscore c then trimLeading s' else s
  end.

Fixpoint trimTrailing (s : string) : string :=
  match s with
  | "" => ""
  | String c s' =>
      let t := trimTrailing s' in
      if JS.isUnderscore c && JS.isEmpty t then "" else String c t
  end.

Inductive casing : Type := Uppercase | Lowercase.

(** Modelled from the spec: [identifierFromLabel] of [KeymapGenerator.ts],
    which is not among the sources.  "replace every maximal run of
    non-alphanumeric characters with a single underscore, trim
    leading/trailing underscores, and apply the requested case". *)
Definition identifierFromLabel (label : string) (c : casing) : string :=
  let trimmed := trimTrailing (trimLeading (collapseRuns false label)) in
  match c with
  | Uppercase => JS.toUpperCase trimmed
  | Lowercase => JS.toLowerCase trimmed
  end.

(** Modelled from the spec: the sort of [generateLayer], "Bindings are
    first sorted by ascending position".  An insertion sort that keeps
    the stored order of bindings of equal position, as
    [Array.prototype.sort] does. *)
Fixpoint insertByPosition (b : Binding) (l : list Binding) : list Binding :=
  match l with
  | [] => [b]
  | x :: l' =>
      if position b <=? position x then b :: l
      else x :: insertByPosition b l'
  end.

Fixpoint sortByPosition (l : list Binding) : list Binding :=
  match l with
  | [] => []
  | b :: l' => insertByPosition b (sortByPosition l')
  end.

(** Modelled from the spec: the layout of [generateLayer], "fixed rows of
    6 tokens each (final row may be shorter)".  A row is cut while tokens
    are left; [fuel] bounds the number of rows. *)
Fixpoint rowsFrom {A : Type} (fuel : nat) (perRow : nat) (l : list A)
  : list (list A) :=
  match fuel with
  | O => []
  | S fuel' =>
      match l with
      | [] => []
      | _ :: _ => take perRow l :: rowsFrom fuel' perRow (drop perRow l)
      end
  end.

Definition bindingsPerRow : nat := 6.

(** Modelled from the spec: the rows of [generateLayer].  A layer always
    has a row, which is empty when there is no token: "a layer with ≤6
    bindings produces exactly 1 row". *)
Definition rowsOf {A : Type} (l : list A) : list (list A) :=
  match l with
  | [] => [[]]
  | _ :: _ => rowsFrom (length l) bindingsPerRow l
  end.

Definition newline : string := String (ascii_of_nat 10) "".

Section WithDatabase.

Variable hid_usage_get_label : Z → Z → option string.

(** the resolver handed to the formatter: [HidMapper.getZmkKeyName] *)
Definition resolveSymbolicName (usage : Z) : option string :=
  value (HidMapper.getZmkKeyName hid_usage_get_label usage).

Definition formatToken (b : Binding) : string :=
  value (format resolveSymbolicName b).

(** Modelled from the spec: the rows of binding tokens that
    [generateLayer] lays out.  "Bindings are first sorted by ascending
    position, each formatted via the Behavior Formatter (resolver = HID
    Usage Resolver's resolveSymbolicName), then laid out as
    whitespace-separated tokens in fixed rows of 6 tokens each". *)
Definition bindingRows (layer : Layer) : list (list string) :=
  rowsOf (map formatToken (sortByPosition (bindings layer))).

(** Modelled from the spec: [generateLayer] of [KeymapGenerator.ts], which
    is not among the sources.  "emits a DeviceTree child node named
    <lower_ident>_layer containing label = "<layer.label>"; and a
    bindings = < ... >; block. [...] one row per text line." *)
Definition generateLayerLines (layer : Layer) : list string :=
  [ identifierFromLabel (label layer) Lowercase +:+ "_layer {";
    "label = " +:+ JS.dquote +:+ label layer +:+ JS.dquote +:+ ";";
    "bindings = <" ]
  ++ map (JS.join " ") (bindingRows layer)
  ++ [ ">;"; "};" ].

Definition generateLayer (layer : Layer) : string :=
  JS.join newline (generateLayerLines layer).

End WithDatabase.

End KeymapGenerator.


(** ** Vocabulary of the properties, and sample inputs *)
Module Props.

Import BehaviorMapper.

(** the characters of a key token: [A-Z], [0-9] and the underscore *)
Definition isKeyNameChar (c : ascii) : bool :=
  JS.isUpper c || JS.isDigit c || JS.isUnderscore c.

Definition isAlnumOrUnderscore (c : ascii) : bool :=
  JS.isAlnum c || JS.isUnderscore c.

(** the modifier range of the Keyboard page *)
Definition inModifierRange (page id : Z) : Prop :=
  page = 0x07 ∧ 0xE0 ≤ id ≤ 0xE7.


(** no two underscores in a row *)
Fixpoint noDoubleUnderscore (s : string) : bool :=
  match s with
  | "" => true
  | String c s' =>
      negb (JS.isUnderscore c && JS.startsWithUnderscore s')
      && noDoubleUnderscore s'
  end.


(** a database without labels, one that labels everything ["!"], and a
    small one *)
Definition noLabels (page id : Z) : option string := None.
Definition bangLabels (page id : Z) : option string := Some "!".
Definition sampleLabels (page id : Z) : option string :=
  if (page =? 0x07) && (id =? 0x04) then Some "A"
  else if (page =? 0x07) && (id =? 0x29) then Some "ESC"
  else if (page =? 0x07) && (id =? 0x65) then Some "Keyboard Application"
  else if (page =? 0x07) && (id =? 0x53) then Some "Keypad Num Lock and Clear"
  else None.

(** the resolver of [BehaviorMapper.test.ts] *)
Definition mockGetKeyName (hidUsage : Z) : option string :=
  JS.orNull
    ((list_to_map
        [ (0x04, "Q"); (0x1A, "W"); (0x08, "E"); (0x2C, "SPACE");
          (0xE0, "LCTRL"); (0x2B, "TAB") ] : gmap Z string) !! hidUsage).


Definition binding (behaviorId param1 : Z) (param2 : option Z) (position : Z)
  : Binding :=
  {| behaviorId := behaviorId; param1 := param1; param2 := param2;
     position := position |}.




(** The registry object and its records are as module initialisation left
    them, and the mappings handed out are objects of their own. *)
Definition registry_intact (σ : gmap positive object) (R : gset positive)
  : Prop :=
  (∀ l : positive, l ∈ dom initial → σ !! l = initial !! l)
  ∧ R ## dom initial
  ∧ R ⊆ dom σ.

(** a copy, and the store after [m.get(1).code = 'zz'] on it *)
Definition copied : positive * gmap positive object := getAllBehaviors initial.
Definition tampered : gmap positive object := writeCode 2 "zz" copied.2.


(** the last character is an underscore *)
Fixpoint lastIsUnderscore (s : string) : bool :=
  match s with
  | "" => false
  | String c s' =>
      match s' with
      | "" => JS.isUnderscore c
      | String _ _ => lastIsUnderscore s'
      end
  end.

(** a name in key-name form: characters of [A-Z0-9_], underscores single
    and only inside *)
Definition keyNameForm (s : string) : Prop :=
  JS.allChars isKeyNameChar s = true
  ∧ noDoubleUnderscore s = true
  ∧ JS.startsWithUnderscore s = false
  ∧ lastIsUnderscore s = false.

(** a handled page: Keyboard or Consumer *)
Definition handledPage (page : Z) : Prop := page = 0x07 ∨ page = 0x0C.

(** the parameters of a binding, as a list *)
Definition parameters (b : Binding) : list Z :=
  param1 b :: match param2 b with Some v => [v] | None => [] end.

End Props.

Import Props.

(** * Properties *)

(** ** Characters and the replacement chain *)

Lemma upperChar_keyName (c : ascii) :
  isAlnumOrUnderscore c = true → isKeyNameChar (JS.upperChar c) = true.
Proof.
  destruct c as [[] [] [] [] [] [] [] []]; vm_compute; congruence.
Qed.

Lemma allChars_replaceNonAlnum (s : string) :
  JS.allChars isAlnumOrUnderscore (JS.replaceNonAlnum s) = true.
Proof.
  induction s as [|c s IH]; simpl; [reflexivity|].
  rewrite IH, andb_true_r.
  unfold isAlnumOrUnderscore.
  destruct (JS.isAlnum c) eqn:E; [now rewrite E | reflexivity].
Qed.

Lemma allChars_collapseUnderscores (p : ascii → bool) (s : string) :
  JS.allChars p s = true → JS.allChars p (JS.collapseUnderscores s) = true.
Proof.
  induction s as [|c s IH]; simpl; [reflexivity|].
  intros [Hc Hs]%andb_true_iff.
  destruct (JS.isUnderscore c && JS.startsWithUnderscore s); simpl; auto.
  rewrite Hc; auto.
Qed.

Lemma allChars_dropLeadingUnderscore (p : ascii → bool) (s : string) :
  JS.allChars p s = true → JS.allChars p (JS.dropLeadingUnderscore s) = true.
Proof.
  destruct s as [|c s]; simpl; [reflexivity|].
  intros H. destruct (JS.isUnderscore c); [|exact H].
  now apply andb_true_iff in H.
Qed.

Lemma allChars_dropTrailingUnderscore (p : ascii → bool) (s : string) :
  JS.allChars p s = true → JS.allChars p (JS.dropTrailingUnderscore s) = true.
Proof.
  induction s as [|c s IH]; [reflexivity|].
  intros H. pose proof H as [Hc Hs]%andb_true_iff.
  change (JS.dropTrailingUnderscore (String c s)) with
    (match s with
     | "" => if JS.isUnderscore c then "" else String c s
     | String _ _ => String c (JS.dropTrailingUnderscore s)
     end).
  destruct s as [|c' s'].
  - destruct (JS.isUnderscore c); [reflexivity | exact H].
  - cbn [JS.allChars]. rewrite Hc. now apply IH.
Qed.

Lemma allChars_toUpperCase (s : string) :
  JS.allChars isAlnumOrUnderscore s = true →
  JS.allChars isKeyNameChar (JS.toUpperCase s) = true.
Proof.
  induction s as [|c s IH]; simpl; [reflexivity|].
  intros [Hc Hs]%andb_true_iff.
  rewrite upperChar_keyName by exact Hc. now apply IH.
Qed.

Lemma fallback_chain_keyName (s : string) :
  JS.allChars isKeyNameChar
    (JS.toUpperCase
       (JS.trimUnderscoreEnds (JS.collapseUnderscores (JS.replaceNonAlnum s))))
  = true.
Proof.
  apply allChars_toUpperCase, allChars_dropTrailingUnderscore,
    allChars_dropLeadingUnderscore, allChars_collapseUnderscores,
    allChars_replaceNonAlnum.
Qed.






(** *** The replacement chain of the sources against the words of the
    specification *)

Lemma isAlnum_not_underscore (c : ascii) :
  JS.isAlnum c = true → JS.isUnderscore c = false.
Proof.
  destruct c as [[] [] [] [] [] [] [] []]; vm_compute; congruence.
Qed.

Lemma collapse_replace_runs (s : string) :
  JS.collapseUnderscores (JS.replaceNonAlnum s)
  = KeymapGenerator.collapseRuns false s
  ∧ JS.collapseUnderscores (String "_" (JS.replaceNonAlnum s))
    = String "_" (KeymapGenerator.collapseRuns true s).
Proof.
  induction s as [|c s [IHa IHb]]; [split; reflexivity|].
  cbn [JS.replaceNonAlnum KeymapGenerator.collapseRuns].
  destruct (JS.isAlnum c) eqn:A.
  - pose proof (isAlnum_not_underscore c A) as U.
    assert (E : JS.collapseUnderscores (String c (JS.replaceNonAlnum s))
                = String c (KeymapGenerator.collapseRuns false s)).
    { cbn [JS.collapseUnderscores]. rewrite U. cbn [andb]. now rewrite IHa. }
    split; [exact E|].
    change (JS.collapseUnderscores
              (String "_" (String c (JS.replaceNonAlnum s))))
      with (if JS.isUnderscore "_" && JS.isUnderscore c
            then JS.collapseUnderscores (String c (JS.replaceNonAlnum s))
            else String "_"
                   (JS.collapseUnderscores (String c (JS.replaceNonAlnum s)))).
    rewrite U, andb_false_r. now rewrite E.
  - split; [exact IHb|].
    change (JS.collapseUnderscores
              (String "_" (String "_" (JS.replaceNonAlnum s))))
      with (JS.collapseUnderscores (String "_" (JS.replaceNonAlnum s))).
    exact IHb.
Qed.

Lemma collapseRuns_shape (s : string) :
  noDoubleUnderscore (KeymapGenerator.collapseRuns false s) = true
  ∧ noDoubleUnderscore (KeymapGenerator.collapseRuns true s) = true
  ∧ JS.startsWithUnderscore (KeymapGenerator.collapseRuns true s) = false.
Proof.
  induction s as [|c s (IHf & IHt & IHs)]; [repeat split|].
  cbn [KeymapGenerator.collapseRuns].
  destruct (JS.isAlnum c) eqn:A.
  - pose proof (isAlnum_not_underscore c A) as U.
    cbn [noDoubleUnderscore JS.startsWithUnderscore].
    rewrite U, IHf. repeat split.
  - cbn [noDoubleUnderscore]. rewrite IHs, IHt, andb_false_r.
    repeat split; assumption.
Qed.





(** ** The HID usage resolver *)

Lemma modifier_range_cases (id : Z) :
  0xE0 ≤ id ≤ 0xE7 →
  id = 0xE0 ∨ id = 0xE1 ∨ id = 0xE2 ∨ id = 0xE3 ∨
  id = 0xE4 ∨ id = 0xE5 ∨ id = 0xE6 ∨ id = 0xE7.
Proof. lia. Qed.

(** C1. A usage code of the Keyboard page (0x07) whose id lies in
    0xE0..0xE7 resolves to the modifier name at index [id - 0xE0] of the
    table LCTRL, LSHFT, LALT, LGUI, RCTRL, RSHFT, RALT, RGUI, and the
    usage-name database is not consulted: the call log is empty, whatever
    the database.  In particular [(0x07 << 16) | 0xE4] resolves to
    ["RCTRL"]. *)
Theorem C1_modifier_names (db : Z → Z → option string) :
  (∀ usage : Z,
     (hid_usage_page_and_id_from_usage usage).1 = 0x07 →
     0xE0 ≤ (hid_usage_page_and_id_from_usage usage).2 ≤ 0xE7 →
     ∃ name : string,
       [ "LCTRL"; "LSHFT"; "LALT"; "LGUI"; "RCTRL"; "RSHFT"; "RALT"; "RGUI" ]
         !! Z.to_nat ((hid_usage_page_and_id_from_usage usage).2 - 0xE0)
       = Some name
       ∧ HidMapper.getZmkKeyName db usage = Log (Some name) [])
  ∧ HidMapper.getZmkKeyName db (Z.lor (Z.shiftl 0x07 16) 0xE4)
    = Log (Some "RCTRL") [].
Proof.
  split; [|vm_compute; reflexivity].
  intros usage Hpage Hid. unfold HidMapper.getZmkKeyName.
  destruct (hid_usage_page_and_id_from_usage usage) as [page id].
  cbn [fst snd] in Hpage, Hid. subst page.
  destruct (modifier_range_cases id Hid)
    as [->|[->|[->|[->|[->|[->|[->| ->]]]]]]];
    (eexists; split; [reflexivity | vm_compute; reflexivity]).
Qed.

Lemma C1_modifier_names_witness :
  (hid_usage_page_and_id_from_usage (hid 0x07 0xE1)).1 = 0x07
  ∧ 0xE0 ≤ (hid_usage_page_and_id_from_usage (hid 0x07 0xE1)).2 ≤ 0xE7
  ∧ ∃ name : string,
      [ "LCTRL"; "LSHFT"; "LALT"; "LGUI"; "RCTRL"; "RSHFT"; "RALT"; "RGUI" ]
        !! Z.to_nat ((hid_usage_page_and_id_from_usage (hid 0x07 0xE1)).2 - 0xE0)
      = Some name
      ∧ HidMapper.getZmkKeyName sampleLabels (hid 0x07 0xE1)
        = Log (Some name) [].
Proof.
  split; [vm_compute; reflexivity|].
  split; [vm_compute; split; discriminate|].
  apply (proj1 (C1_modifier_names sampleLabels) (hid 0x07 0xE1)).
  - vm_compute; reflexivity.
  - vm_compute; split; discriminate.
Defined.

(** C7. A usage code whose page is neither 0x07 nor 0x0C resolves to
    none, in both sources of the resolver, and without a look at the
    database; for example [(0x01 << 16) | 0x01]. *)
Theorem C7_other_pages_none (db : Z → Z → option string) :
  (∀ usage : Z,
     (hid_usage_page_and_id_from_usage usage).1 ≠ 0x07 →
     (hid_usage_page_and_id_from_usage usage).1 ≠ 0x0C →
     HidMapper.getZmkKeyName db usage = Log None []
     ∧ HidMapper0.getZmkKeyName db usage = Log None [])
  ∧ value (HidMapper.getZmkKeyName db (Z.lor (Z.shiftl 0x01 16) 0x01)) = None
  ∧ value (HidMapper0.getZmkKeyName db (Z.lor (Z.shiftl 0x01 16) 0x01)) = None.
Proof.
  split; [|split; vm_compute; reflexivity].
  intros usage H7 HC.
  unfold HidMapper.getZmkKeyName, HidMapper0.getZmkKeyName.
  destruct (hid_usage_page_and_id_from_usage usage) as [page id].
  cbn [fst snd] in H7, HC.
  assert (E7 : (page =? HidMapper.HID_PAGE_KEYBOARD) = false)
    by (apply Z.eqb_neq; exact H7).
  assert (EC : (page =? HidMapper.HID_PAGE_CONSUMER) = false)
    by (apply Z.eqb_neq; exact HC).
  change HidMapper0.HID_PAGE_KEYBOARD with HidMapper.HID_PAGE_KEYBOARD.
  change HidMapper0.HID_PAGE_CONSUMER with HidMapper.HID_PAGE_CONSUMER.
  rewrite E7, EC. split; reflexivity.
Qed.

Lemma C7_other_pages_none_witness :
  (hid_usage_page_and_id_from_usage 0xFFFF).1 ≠ 0x07
  ∧ (hid_usage_page_and_id_from_usage 0xFFFF).1 ≠ 0x0C
  ∧ HidMapper.getZmkKeyName bangLabels 0xFFFF = Log None []
  ∧ HidMapper0.getZmkKeyName bangLabels 0xFFFF = Log None [].
Proof.
  split; [vm_compute; discriminate|]. split; [vm_compute; discriminate|].
  apply (proj1 (C7_other_pages_none bangLabels) 0xFFFF);
    vm_compute; discriminate.
Defined.




Lemma isEmpty_false (s : string) : s ≠ "" → JS.isEmpty s = false.
Proof. destruct s; [congruence | reflexivity]. Qed.

Lemma page_test (page : Z) :
  page = 0x07 ∨ page = 0x0C →
  negb (page =? 0x07) && negb (page =? 0x0C) = false.
Proof. intros [-> | ->]; reflexivity. Qed.

Lemma modifier_test (page id : Z) :
  ¬ inModifierRange page id →
  (page =? 0x07) && (0xE0 <=? id) && (id <=? 0xE7) = false.
Proof.
  unfold inModifierRange. intros H.
  destruct (page =? 0x07) eqn:P, (0xE0 <=? id) eqn:L, (id <=? 0xE7) eqn:U;
    try reflexivity.
  exfalso. apply H. lia.
Qed.




(** C9, amended. Outside the modifier range of the Keyboard page, and
    when the label of the usage, if there is one, is a key of neither
    override table, the two sources of the resolver return the same
    result (and consult the database alike). *)
Theorem C9_sources_agree_elsewhere (db : Z → Z → option string) (usage : Z) :
  ¬ inModifierRange (hid_usage_page_and_id_from_usage usage).1
      (hid_usage_page_and_id_from_usage usage).2 →
  (∀ label : string,
     db (hid_usage_page_and_id_from_usage usage).1
        (hid_usage_page_and_id_from_usage usage).2 = Some label →
     HidMapper.KEY_NAME_OVERRIDES !! label = None
     ∧ HidMapper0.KEY_NAME_OVERRIDES !! label = None) →
  HidMapper0.getZmkKeyName db usage = HidMapper.getZmkKeyName db usage.
Proof.
  intros Hmod Hkeys.
  unfold HidMapper.getZmkKeyName, HidMapper0.getZmkKeyName.
  destruct (hid_usage_page_and_id_from_usage usage) as [page id].
  cbn [fst snd] in Hmod, Hkeys.
  change HidMapper0.HID_PAGE_KEYBOARD with 0x07.
  change HidMapper0.HID_PAGE_CONSUMER with 0x0C.
  change HidMapper.HID_PAGE_KEYBOARD with 0x07.
  change HidMapper.HID_PAGE_CONSUMER with 0x0C.
  rewrite (modifier_test page id Hmod).
  destruct (negb (page =? 0x07) && negb (page =? 0x0C)); [reflexivity|].
  unfold HidMapper.getLabel, HidMapper0.getLabel, call, bind.
  cbn [value calls fst snd].
  destruct (db page id) as [label|]; [|reflexivity].
  destruct (Hkeys label eq_refl) as [-> ->]. reflexivity.
Qed.

Lemma C9_sources_agree_elsewhere_witness :
  HidMapper0.getZmkKeyName sampleLabels (hid 0x07 0x65)
  = HidMapper.getZmkKeyName sampleLabels (hid 0x07 0x65)
  ∧ value (HidMapper.getZmkKeyName sampleLabels (hid 0x07 0x65))
    = Some "APPLICATION".
Proof.
  split; [|vm_compute; reflexivity].
  apply (C9_sources_agree_elsewhere sampleLabels (hid 0x07 0x65)).
  - intros [_ H]. vm_compute in H. destruct H as [H _]. now apply H.
  - intros label H. vm_compute in H. injection H as <-.
    split; vm_compute; reflexivity.
Defined.

(** C9, as stated, fails: with no label for the usage
    [(0x07 << 16) | 0xE4], the source with the modifier table answers
    ["RCTRL"] and the other one answers none; and on the label ["1"] the
    former answers ["N1"], the latter ["1"]. *)
Lemma C9_counterexample :
  value (HidMapper.getZmkKeyName noLabels (Z.lor (Z.shiftl 0x07 16) 0xE4))
  = Some "RCTRL"
  ∧ value (HidMapper0.getZmkKeyName noLabels (Z.lor (Z.shiftl 0x07 16) 0xE4))
    = None
  ∧ value (HidMapper.getZmkKeyName (fun _ _ => Some "1") (hid 0x07 0x1E))
    = Some "N1"
  ∧ value (HidMapper0.getZmkKeyName (fun _ _ => Some "1") (hid 0x07 0x1E))
    = Some "1".
Proof. do 3 (split; [vm_compute; reflexivity|]). vm_compute; reflexivity. Qed.

(** ** The behavior formatter *)

Import BehaviorMapper.

Lemma BEHAVIORS_unknown (k : Z) : ¬ (0 ≤ k ≤ 6) → BEHAVIORS !! k = None.
Proof.
  intros H. unfold BEHAVIORS, BEHAVIORS_entries.
  rewrite !list_to_map_cons, list_to_map_nil.
  rewrite !lookup_insert_ne by lia. apply lookup_empty.
Qed.

Lemma registered_cases (k : Z) :
  0 ≤ k ≤ 6 → k = 0 ∨ k = 1 ∨ k = 2 ∨ k = 3 ∨ k = 4 ∨ k = 5 ∨ k = 6.
Proof. lia. Qed.




(** the formatter, behavior by behavior *)
Lemma format_unknown (r : Z → option string) (b : Binding) :
  ¬ (0 ≤ behaviorId b ≤ 6) →
  format r b
  = Log ("/* Unknown behavior " +:+ JS.toString (behaviorId b) +:+ " */") [].
Proof.
  intros H. unfold format, formatBinding.
  now rewrite (BEHAVIORS_unknown _ H).
Qed.

Lemma format_trans (r : Z → option string) (b : Binding) :
  behaviorId b = 0 → format r b = Log "&trans" [].
Proof. intros H. unfold format, formatBinding. now rewrite H. Qed.

Lemma format_kp (r : Z → option string) (b : Binding) :
  behaviorId b = 1 →
  format r b
  = Log ("&kp " +:+ JS.orElse (r (param1 b)) (hexMarker (param1 b)))
        [param1 b].
Proof. intros H. unfold format, formatBinding. now rewrite H. Qed.

Lemma format_mt (r : Z → option string) (b : Binding) :
  behaviorId b = 2 →
  format r b
  = match param2 b with
    | Some v =>
        Log ("&mt " +:+ JS.orElse (r (param1 b)) (hexMarker (param1 b))
             +:+ " " +:+ JS.orElse (r v) (hexMarker v))
            [param1 b; v]
    | None =>
        Log ("&mt " +:+ JS.orElse (r (param1 b)) (hexMarker (param1 b))
             +:+ " " +:+ "/* missing param2 */")
            [param1 b]
    end.
Proof.
  intros H. unfold format, formatBinding. rewrite H.
  now destruct (param2 b).
Qed.

Lemma format_lt (r : Z → option string) (b : Binding) :
  behaviorId b = 3 →
  format r b
  = match param2 b with
    | Some v =>
        Log ("&lt " +:+ JS.toString (param1 b) +:+ " "
             +:+ JS.orElse (r v) (hexMarker v)) [v]
    | None =>
        Log ("&lt " +:+ JS.toString (param1 b) +:+ " "
             +:+ "/* missing key */") []
    end.
Proof.
  intros H. unfold format, formatBinding. rewrite H.
  now destruct (param2 b).
Qed.

Lemma format_layer_or_bt (r : Z → option string) (b : Binding) :
  (behaviorId b = 4 → format r b = Log ("&mo " +:+ JS.toString (param1 b)) [])
  ∧ (behaviorId b = 5 →
     format r b = Log ("&tog " +:+ JS.toString (param1 b)) [])
  ∧ (behaviorId b = 6 →
     format r b = Log ("&bt " +:+ JS.toString (param1 b)) []).
Proof.
  repeat split; intros H; unfold format, formatBinding; now rewrite H.
Qed.








(** ** The keymap text generator *)

Import KeymapGenerator.














(** ** The registry and its copies *)

Lemma initial_lookups :
  initial !! BEHAVIORS_ref = Some (MapObj (list_to_map record_refs))
  ∧ ∀ (k : Z) (r : positive),
      (list_to_map record_refs : gmap Z positive) !! k = Some r →
      r ∈ dom initial
      ∧ (match initial !! r with
         | Some (BehaviorObj b) => Some b
         | _ => None
         end) = BEHAVIORS !! k.
Proof.
  split; [vm_compute; reflexivity|].
  intros k r Hk.
  apply elem_of_list_to_map_2 in Hk.
  unfold record_refs in Hk.
  repeat (apply elem_of_cons in Hk as [[= -> ->] | Hk];
          [split; [apply elem_of_dom; vm_compute; eauto
                  | vm_compute; reflexivity]|]).
  now apply elem_of_nil in Hk.
Qed.


Lemma BEHAVIORS_ref_in_dom : BEHAVIORS_ref ∈ dom initial.
Proof. apply elem_of_dom. vm_compute. eauto. Qed.


Lemma intact_initial : registry_intact initial ∅.
Proof. repeat split; set_solver. Qed.

(** an update of an object outside the initial ones keeps the registry *)
Lemma intact_insert (σ : gmap positive object) (R : gset positive)
    (m : positive) (o : object) :
  registry_intact σ R → m ∉ dom initial →
  registry_intact (<[ m := o ]> σ) R.
Proof.
  intros (Hσ & Hdisj & Hsub) Hm. repeat split.
  - intros l Hl. rewrite lookup_insert_ne; [now apply Hσ|].
    intros ->. contradiction.
  - exact Hdisj.
  - rewrite dom_insert_L. set_solver.
Qed.

Lemma intact_fresh (σ : gmap positive object) (R : gset positive) :
  registry_intact σ R →
  (fresh (dom σ) ∉ dom initial) ∧ (fresh (dom σ) ∉ R).
Proof.
  intros (Hσ & Hdisj & Hsub).
  pose proof (is_fresh (dom σ)) as Hf.
  split; [|set_solver].
  intros Hin. apply Hf, elem_of_dom.
  rewrite (Hσ _ Hin). now apply elem_of_dom.
Qed.

Lemma returned_not_initial (σ : gmap positive object) (R : gset positive)
    (m : positive) :
  registry_intact σ R → m ∈ R → m ∉ dom initial.
Proof.
  intros (_ & Hdisj & _) Hm Hin.
  apply elem_of_disjoint in Hdisj. exact (Hdisj m Hm Hin).
Qed.

Lemma intact_step (σ σ' : gmap positive object) (R R' : gset positive) :
  caller_step (σ, R) (σ', R') →
  registry_intact σ R → registry_intact σ' R'.
Proof.
  intros Hstep HI. pose proof HI as (Hσ & Hdisj & Hsub).
  inversion Hstep; subst.
  - destruct (intact_fresh _ _ HI) as [Hf1 Hf2].
    unfold getAllBehaviors; cbn [fst snd].
    destruct (intact_insert σ R (fresh (dom σ))
                (MapObj (entriesOf σ BEHAVIORS_ref)) HI Hf1)
      as (H1 & H2 & H3).
    split; [exact H1|]. split.
    + apply disjoint_union_l. split; [|exact H2].
      now apply disjoint_singleton_l.
    + rewrite dom_insert_L.
      apply union_subseteq. split; [apply union_subseteq_l|].
      etrans; [exact Hsub | apply union_subseteq_r].
  - destruct (intact_fresh _ _ HI) as [Hf1 _].
    unfold newBehavior; cbn [fst snd]. now apply intact_insert.
  - unfold Map_set. destruct (σ !! m) as [[b|e]|]; try exact HI.
    apply intact_insert; [exact HI|].
    eapply returned_not_initial; eassumption.
  - unfold Map_delete. destruct (σ !! m) as [[b|e]|]; try exact HI.
    apply intact_insert; [exact HI|].
    eapply returned_not_initial; eassumption.
  - unfold Map_clear. destruct (σ !! m) as [[b|e]|]; try exact HI.
    apply intact_insert; [exact HI|].
    eapply returned_not_initial; eassumption.
Qed.

Lemma intact_reachable (s s' : gmap positive object * gset positive) :
  rtc (caller_step) s s' →
  registry_intact s.1 s.2 → registry_intact s'.1 s'.2.
Proof.
  induction 1 as [|[σ1 R1] [σ2 R2] s3 Hstep _ IH]; [trivial|].
  intros HI. apply IH. exact (intact_step _ _ _ _ Hstep HI).
Qed.




(** The copy is a [Map] of its own, not a copy of the records: its
    entries are the references the registry holds.  A write to a field of
    a record is a mutation of that record, not of a mapping; done on a
    record found in a copy, it is seen by the registry. *)
Remark records_are_shared :
  Map_get copied.2 copied.1 1 = Map_get copied.2 BEHAVIORS_ref 1
  ∧ value (formatIn initial mockGetKeyName (binding 1 0x04 None 0)) = "&kp Q"
  ∧ value (formatIn tampered mockGetKeyName (binding 1 0x04 None 0)) = "&zz 4".
Proof.
  do 2 (split; [vm_compute; reflexivity|]). vm_compute; reflexivity.
Qed.

(** * Further properties of the sources *)

(** ** Key categories *)

Lemma testSingleUpper_iff (s : string) :
  JS.testSingleUpper s = true ↔ ∃ c : ascii, s = String c "" ∧ JS.isUpper c = true.
Proof.
  split.
  - destruct s as [|c [|d r]]; cbn; try discriminate. eauto.
  - intros (c & -> & H). exact H.
Qed.

Lemma testNDigit_iff (s : string) :
  JS.testNDigit s = true
  ↔ ∃ d : ascii, s = String "N" (String d "") ∧ JS.isDigit d = true.
Proof.
  split.
  - destruct s as [|c [|d [|e r]]]; cbn; try discriminate.
    intros [Hc Hd]%andb_true_iff. apply Ascii.eqb_eq in Hc. subst c. eauto.
  - intros (d & -> & H). cbn. exact H.
Qed.

Lemma testFDigits_iff (s : string) :
  JS.testFDigits s = true
  ↔ ∃ ds : string,
      s = String "F" ds ∧ ds ≠ "" ∧ JS.allChars JS.isDigit ds = true.
Proof.
  split.
  - destruct s as [|c r]; cbn; try discriminate.
    intros [[Hc Hr]%andb_true_iff Hd]%andb_true_iff.
    apply Ascii.eqb_eq in Hc. subst c. exists r. repeat split; [|exact Hd].
    intros ->. discriminate.
  - intros (ds & -> & Hne & H). cbn. rewrite H.
    destruct ds; [congruence | reflexivity].
Qed.

Lemma includes_iff (arr : list string) (s : string) :
  JS.includes arr s = true ↔ In s arr.
Proof.
  unfold JS.includes. rewrite existsb_exists. split.
  - intros (x & Hx & E). apply String.eqb_eq in E. now subst.
  - intros H. exists s. split; [exact H | apply String.eqb_refl].
Qed.

Lemma modifierNames_category (name : string) :
  In name HidMapper.modifierNames →
  HidMapper.categorizeKey name = Types.KModifier.
Proof.
  intros H. repeat (destruct H as [<- | H]; [reflexivity|]). destruct H.
Qed.

Lemma modifier_category_iff (name : string) :
  HidMapper.categorizeKey name = Types.KModifier
  ↔ In name HidMapper.modifierNames.
Proof.
  split; [|apply modifierNames_category].
  unfold HidMapper.categorizeKey.
  destruct (JS.testSingleUpper name); [discriminate|].
  destruct (JS.testNDigit name || JS.testFDigits name);
    [destruct (JS.startsWithF name); discriminate|].
  destruct (JS.includes HidMapper.modifierNames name) eqn:I;
    [|discriminate].
  intros _. now apply includes_iff in I.
Qed.

(** X1. [categorizeKey] sorts a name by its form: a single letter of
    [A-Z] is a letter; [N] and one digit is a number; [F] and one or more
    digits is a function key; one of the eight modifier names is a
    modifier (no earlier test takes a modifier name away); every other
    name is special.  The two sources agree. *)
Theorem X1_categorizeKey_by_form (name : string) :
  (HidMapper.categorizeKey name = Types.KLetter
   ↔ ∃ c : ascii, name = String c "" ∧ JS.isUpper c = true)
  ∧ (HidMapper.categorizeKey name = Types.KNumber
     ↔ ∃ d : ascii, name = String "N" (String d "") ∧ JS.isDigit d = true)
  ∧ (HidMapper.categorizeKey name = Types.KFunction
     ↔ ∃ ds : string,
         name = String "F" ds ∧ ds ≠ ""
         ∧ JS.allChars JS.isDigit ds = true)
  ∧ (HidMapper.categorizeKey name = Types.KModifier
     ↔ In name
         ["LCTRL"; "LSHFT"; "LALT"; "LGUI"; "RCTRL"; "RSHFT"; "RALT"; "RGUI"])
  ∧ HidMapper0.categorizeKey name = HidMapper.categorizeKey name.
Proof.
  assert (NF : JS.testNDigit name = true → JS.startsWithF name = false).
  { intros (d & -> & _)%testNDigit_iff. reflexivity. }
  assert (FF : JS.testFDigits name = true → JS.startsWithF name = true).
  { intros (ds & -> & _)%testFDigits_iff. reflexivity. }
  assert (UN : JS.testSingleUpper name = true → JS.testNDigit name = false).
  { intros (c & -> & _)%testSingleUpper_iff. reflexivity. }
  assert (UF : JS.testSingleUpper name = true → JS.testFDigits name = false).
  { intros (c & -> & _)%testSingleUpper_iff. cbn.
    destruct (Ascii.eqb c "F"); reflexivity. }
  rewrite <- testSingleUpper_iff, <- testNDigit_iff, <- testFDigits_iff.
  split; [|split; [|split; [|split; [|reflexivity]]]].
  - unfold HidMapper.categorizeKey.
    destruct (JS.testSingleUpper name); [tauto|].
    split; [|discriminate].
    destruct (JS.testNDigit name || JS.testFDigits name);
      [destruct (JS.startsWithF name)|
       destruct (JS.includes HidMapper.modifierNames name)]; discriminate.
  - unfold HidMapper.categorizeKey.
    destruct (JS.testSingleUpper name) eqn:U.
    { rewrite (UN eq_refl). split; discriminate. }
    destruct (JS.testNDigit name) eqn:N.
    { cbn [orb]. rewrite (NF eq_refl). tauto. }
    cbn [orb]. split; [|discriminate].
    destruct (JS.testFDigits name) eqn:F;
      [rewrite (FF eq_refl)|
       destruct (JS.includes HidMapper.modifierNames name)]; discriminate.
  - unfold HidMapper.categorizeKey.
    destruct (JS.testSingleUpper name) eqn:U.
    { rewrite (UF eq_refl). split; discriminate. }
    destruct (JS.testFDigits name) eqn:F.
    { rewrite orb_true_r, (FF eq_refl). tauto. }
    rewrite orb_false_r. split; [|discriminate].
    destruct (JS.testNDigit name) eqn:N;
      [rewrite (NF eq_refl)|
       destruct (JS.includes HidMapper.modifierNames name)]; discriminate.
  - apply modifier_category_iff.
Qed.

Lemma X1_categorizeKey_by_form_witness :
  HidMapper.categorizeKey "F12" = Types.KFunction
  ∧ HidMapper.categorizeKey "RALT" = Types.KModifier
  ∧ HidMapper.categorizeKey "N7" = Types.KNumber.
Proof.
  pose proof (X1_categorizeKey_by_form "F12") as (_ & _ & F & _).
  pose proof (X1_categorizeKey_by_form "RALT") as (_ & _ & _ & M & _).
  pose proof (X1_categorizeKey_by_form "N7") as (_ & N & _).
  split; [|split].
  - apply F. exists "12". repeat split. discriminate.
  - apply M. cbn. tauto.
  - apply N. exists "7"%char. split; reflexivity.
Defined.

(** ** Key codes and the modifier test *)

Lemma getKeyCode_value (db : Z → Z → option string) (usage : Z) :
  value (HidMapper.getKeyCode db usage)
  = match value (HidMapper.getZmkKeyName db usage) with
    | None => None
    | Some name =>
        if JS.isEmpty name then None
        else Some {| Types.hidUsage := usage; Types.zmkName := name;
                     Types.label :=
                       JS.orElse
                         (db (hid_usage_page_and_id_from_usage usage).1
                             (hid_usage_page_and_id_from_usage usage).2) "";
                     Types.category := HidMapper.categorizeKey name |}
    end.
Proof.
  unfold HidMapper.getKeyCode, bind. cbn [value].
  destruct (value (HidMapper.getZmkKeyName db usage)) as [name|];
    [|reflexivity].
  destruct (JS.isEmpty name); [reflexivity|].
  now destruct (hid_usage_page_and_id_from_usage usage).
Qed.

Lemma getKeyCode0_value (db : Z → Z → option string) (usage : Z) :
  value (HidMapper0.getKeyCode db usage)
  = match value (HidMapper0.getZmkKeyName db usage) with
    | None => None
    | Some name =>
        if JS.isEmpty name then None
        else Some {| Types.hidUsage := usage; Types.zmkName := name;
                     Types.label :=
                       JS.orElse
                         (db (hid_usage_page_and_id_from_usage usage).1
                             (hid_usage_page_and_id_from_usage usage).2) "";
                     Types.category := HidMapper0.categorizeKey name |}
    end.
Proof.
  unfold HidMapper0.getKeyCode, bind. cbn [value].
  destruct (value (HidMapper0.getZmkKeyName db usage)) as [name|];
    [|reflexivity].
  destruct (JS.isEmpty name); [reflexivity|].
  now destruct (hid_usage_page_and_id_from_usage usage).
Qed.

Lemma isModifier_value (db : Z → Z → option string) (usage : Z) :
  value (HidMapper.isModifier db usage)
  = match value (HidMapper.getZmkKeyName db usage) with
    | None => false
    | Some name =>
        if JS.isEmpty name then false
        else JS.includes HidMapper.modifierNames name
    end
  ∧ value (HidMapper0.isModifier db usage)
    = match value (HidMapper0.getZmkKeyName db usage) with
      | None => false
      | Some name =>
          if JS.isEmpty name then false
          else JS.includes HidMapper.modifierNames name
      end.
Proof.
  unfold HidMapper.isModifier, HidMapper0.isModifier, bind. cbn [value].
  split.
  - destruct (value (HidMapper.getZmkKeyName db usage)) as [name|];
      [|reflexivity].
    now destruct (JS.isEmpty name).
  - destruct (value (HidMapper0.getZmkKeyName db usage)) as [name|];
      [|reflexivity].
    now destruct (JS.isEmpty name).
Qed.




(** X3. [isModifier] answers true exactly when [getKeyCode] returns a
    key code of category modifier.  Both sources. *)
Theorem X3_isModifier_is_modifier_category (db : Z → Z → option string)
    (usage : Z) :
  (value (HidMapper.isModifier db usage) = true
   ↔ ∃ kc : Types.KeyCode,
       value (HidMapper.getKeyCode db usage) = Some kc
       ∧ Types.category kc = Types.KModifier)
  ∧ (value (HidMapper0.isModifier db usage) = true
     ↔ ∃ kc : Types.KeyCode,
         value (HidMapper0.getKeyCode db usage) = Some kc
         ∧ Types.category kc = Types.KModifier).
Proof.
  destruct (isModifier_value db usage) as [-> ->].
  rewrite getKeyCode_value, getKeyCode0_value.
  assert (M : ∀ name : string,
            JS.includes HidMapper.modifierNames name = true
            ↔ HidMapper.categorizeKey name = Types.KModifier).
  { intros name. rewrite includes_iff.
    symmetry. apply modifier_category_iff. }
  split.
  - destruct (value (HidMapper.getZmkKeyName db usage)) as [name|].
    + destruct (JS.isEmpty name).
      * split; [discriminate | intros (kc & H & _); discriminate].
      * rewrite M. split.
        -- intros H. eexists. split; [reflexivity | exact H].
        -- intros (kc & [= <-] & H). exact H.
    + split; [discriminate | intros (kc & H & _); discriminate].
  - destruct (value (HidMapper0.getZmkKeyName db usage)) as [name|].
    + destruct (JS.isEmpty name).
      * split; [discriminate | intros (kc & H & _); discriminate].
      * rewrite M. split.
        -- intros H. eexists. split; [reflexivity | exact H].
        -- intros (kc & [= <-] & H). exact H.
    + split; [discriminate | intros (kc & H & _); discriminate].
Qed.

Lemma X3_isModifier_is_modifier_category_witness :
  value (HidMapper.isModifier noLabels (hid 0x07 0xE6)) = true
  ∧ ∃ kc : Types.KeyCode,
      value (HidMapper.getKeyCode noLabels (hid 0x07 0xE6)) = Some kc
      ∧ Types.category kc = Types.KModifier.
Proof.
  assert (E : value (HidMapper.isModifier noLabels (hid 0x07 0xE6)) = true)
    by (vm_compute; reflexivity).
  split; [exact E|].
  exact (proj1 (proj1 (X3_isModifier_is_modifier_category noLabels
                         (hid 0x07 0xE6))) E).
Defined.

Lemma getZmkKeyName_modifier (db : Z → Z → option string) (usage id : Z) :
  hid_usage_page_and_id_from_usage usage = (0x07, id) →
  0xE0 ≤ id ≤ 0xE7 →
  ∃ name : string,
    HidMapper.modifierMap !! id = Some name
    ∧ In name HidMapper.modifierNames
    ∧ HidMapper.getZmkKeyName db usage = Log (Some name) [].
Proof.
  intros E Hid. unfold HidMapper.getZmkKeyName. rewrite E.
  destruct (modifier_range_cases id Hid)
    as [->|[->|[->|[->|[->|[->|[->| ->]]]]]]];
    (eexists; split; [vm_compute; reflexivity|];
     split; [cbn; tauto | vm_compute; reflexivity]).
Qed.

(** X4. In the source with the modifier table, a usage of the Keyboard
    page with id 0xE0..0xE7 is a modifier whatever the database says:
    [isModifier] answers true without consulting the database, and
    [getKeyCode] returns a key code of category modifier, fetching the
    label once (the label is empty when the database has none).  The
    eight ids get eight different names. *)
Theorem X4_modifier_range_key_codes (db : Z → Z → option string)
    (usage id : Z) :
  hid_usage_page_and_id_from_usage usage = (0x07, id) →
  0xE0 ≤ id ≤ 0xE7 →
  HidMapper.isModifier db usage = Log true []
  ∧ (∃ kc : Types.KeyCode,
       HidMapper.getKeyCode db usage = Log (Some kc) [(0x07, id)]
       ∧ Types.category kc = Types.KModifier
       ∧ Types.label kc = JS.orElse (db 0x07 id) "")
  ∧ (∀ usage' id' : Z,
       hid_usage_page_and_id_from_usage usage' = (0x07, id') →
       0xE0 ≤ id' ≤ 0xE7 →
       value (HidMapper.getZmkKeyName db usage')
       = value (HidMapper.getZmkKeyName db usage) →
       id' = id).
Proof.
  intros E Hid.
  destruct (getZmkKeyName_modifier db usage id E Hid) as (name & Hm & Hin & Hz).
  assert (Hne : JS.isEmpty name = false).
  { cbn in Hin. repeat (destruct Hin as [<- | Hin]; [reflexivity|]).
    destruct Hin. }
  split; [|split].
  - unfold HidMapper.isModifier. rewrite Hz. unfold bind.
    cbn [value calls]. rewrite Hne. unfold ret. cbn [value calls app].
    f_equal. now apply includes_iff.
  - unfold HidMapper.getKeyCode. rewrite Hz. unfold bind. cbn [value calls].
    rewrite Hne, E. unfold HidMapper.getLabel, call, ret.
    cbn [value calls app fst snd].
    eexists. split; [reflexivity|]. cbn [Types.category Types.label].
    split; [|reflexivity].
    now apply modifier_category_iff.
  - intros usage' id' E' Hid'.
    destruct (getZmkKeyName_modifier db usage' id' E' Hid')
      as (name' & Hm' & _ & Hz').
    rewrite Hz, Hz'. cbn. intros [= ->]. revert Hm Hm'.
    destruct (modifier_range_cases id Hid)
      as [->|[->|[->|[->|[->|[->|[->| ->]]]]]]];
      destruct (modifier_range_cases id' Hid')
        as [->|[->|[->|[->|[->|[->|[->| ->]]]]]]];
      vm_compute; congruence.
Qed.

Lemma X4_modifier_range_key_codes_witness :
  HidMapper.isModifier bangLabels (hid 0x07 0xE5) = Log true []
  ∧ ∃ kc : Types.KeyCode,
      HidMapper.getKeyCode bangLabels (hid 0x07 0xE5)
      = Log (Some kc) [(0x07, 0xE5)]
      ∧ Types.category kc = Types.KModifier
      ∧ Types.label kc = JS.orElse (bangLabels 0x07 0xE5) "".
Proof.
  assert (E : hid_usage_page_and_id_from_usage (hid 0x07 0xE5) = (0x07, 0xE5))
    by (vm_compute; reflexivity).
  assert (R : 0xE0 ≤ 0xE5 ≤ 0xE7) by lia.
  pose proof (X4_modifier_range_key_codes bangLabels _ _ E R) as (A & B & _).
  split; [exact A | exact B].
Defined.

(** ** The label path of the resolver *)

Lemma other_pages (db : Z → Z → option string) (usage : Z) :
  ¬ handledPage (hid_usage_page_and_id_from_usage usage).1 →
  HidMapper.getZmkKeyName db usage = Log None []
  ∧ HidMapper0.getZmkKeyName db usage = Log None [].
Proof.
  intros H. unfold HidMapper.getZmkKeyName, HidMapper0.getZmkKeyName.
  destruct (hid_usage_page_and_id_from_usage usage) as [page id].
  cbn [fst snd] in H. unfold handledPage in H.
  change HidMapper0.HID_PAGE_KEYBOARD with 0x07.
  change HidMapper0.HID_PAGE_CONSUMER with 0x0C.
  change HidMapper.HID_PAGE_KEYBOARD with 0x07.
  change HidMapper.HID_PAGE_CONSUMER with 0x0C.
  destruct (Z.eqb_spec page 0x07); [tauto|].
  destruct (Z.eqb_spec page 0x0C); [tauto|]. split; reflexivity.
Qed.

(** the resolver on a handled page, outside the modifier range: the name
    is computed from the label alone *)
Lemma label_path (db : Z → Z → option string) (usage : Z) :
  handledPage (hid_usage_page_and_id_from_usage usage).1 →
  (¬ inModifierRange (hid_usage_page_and_id_from_usage usage).1
       (hid_usage_page_and_id_from_usage usage).2 →
   value (HidMapper.getZmkKeyName db usage)
   = match db (hid_usage_page_and_id_from_usage usage).1
              (hid_usage_page_and_id_from_usage usage).2 with
     | None => None
     | Some label =>
         if JS.isEmpty label then None
         else if negb (JS.falsy (HidMapper.KEY_NAME_OVERRIDES !! label))
         then HidMapper.KEY_NAME_OVERRIDES !! label
         else if JS.testSingleUpper label then Some label
         else Some (HidMapper.fallbackName label)
     end)
  ∧ value (HidMapper0.getZmkKeyName db usage)
    = match db (hid_usage_page_and_id_from_usage usage).1
               (hid_usage_page_and_id_from_usage usage).2 with
      | None => None
      | Some label =>
          if JS.isEmpty label then None
          else if negb (JS.falsy (HidMapper0.KEY_NAME_OVERRIDES !! label))
          then HidMapper0.KEY_NAME_OVERRIDES !! label
          else if JS.testSingleUpper label then Some label
          else Some (HidMapper0.fallbackName label)
      end.
Proof.
  intros Hpage.
  unfold HidMapper.getZmkKeyName, HidMapper0.getZmkKeyName.
  destruct (hid_usage_page_and_id_from_usage usage) as [page id].
  cbn [fst snd] in *.
  change HidMapper0.HID_PAGE_KEYBOARD with 0x07.
  change HidMapper0.HID_PAGE_CONSUMER with 0x0C.
  change HidMapper.HID_PAGE_KEYBOARD with 0x07.
  change HidMapper.HID_PAGE_CONSUMER with 0x0C.
  rewrite (page_test page Hpage).
  unfold HidMapper.getLabel, HidMapper0.getLabel, call, bind.
  cbn [value calls fst snd].
  split.
  - intros Hmod. rewrite (modifier_test page id Hmod).
    destruct (db page id) as [label|]; [|reflexivity].
    destruct (JS.isEmpty label); [reflexivity|].
    destruct (negb (JS.falsy (HidMapper.KEY_NAME_OVERRIDES !! label)));
      [reflexivity|].
    now destruct (JS.testSingleUpper label).
  - destruct (db page id) as [label|]; [|reflexivity].
    destruct (JS.isEmpty label); [reflexivity|].
    destruct (negb (JS.falsy (HidMapper0.KEY_NAME_OVERRIDES !! label)));
      [reflexivity|].
    now destruct (JS.testSingleUpper label).
Qed.

(** X5. In the source without the modifier table the name of a usage is
    a function of its label alone: two usages on handled pages that the
    database labels alike get the same name, so left and right modifiers
    that share a label cannot be told apart.  In the source with the
    table the same holds outside the modifier range only. *)
Theorem X5_same_label_same_name (db : Z → Z → option string)
    (usage usage' : Z) :
  handledPage (hid_usage_page_and_id_from_usage usage).1 →
  handledPage (hid_usage_page_and_id_from_usage usage').1 →
  db (hid_usage_page_and_id_from_usage usage).1
     (hid_usage_page_and_id_from_usage usage).2
  = db (hid_usage_page_and_id_from_usage usage').1
       (hid_usage_page_and_id_from_usage usage').2 →
  value (HidMapper0.getZmkKeyName db usage)
  = value (HidMapper0.getZmkKeyName db usage')
  ∧ (¬ inModifierRange (hid_usage_page_and_id_from_usage usage).1
         (hid_usage_page_and_id_from_usage usage).2 →
     ¬ inModifierRange (hid_usage_page_and_id_from_usage usage').1
         (hid_usage_page_and_id_from_usage usage').2 →
     value (HidMapper.getZmkKeyName db usage)
     = value (HidMapper.getZmkKeyName db usage')).
Proof.
  intros H H' E.
  destruct (label_path db usage H) as [A A0].
  destruct (label_path db usage' H') as [B B0].
  split.
  - now rewrite A0, B0, E.
  - intros M M'. now rewrite (A M), (B M'), E.
Qed.

(** a database with one label for both Control keys *)
Lemma X5_same_label_same_name_witness :
  value (HidMapper0.getZmkKeyName (fun _ _ => Some "Ctrl") (hid 0x07 0xE0))
  = value (HidMapper0.getZmkKeyName (fun _ _ => Some "Ctrl") (hid 0x07 0xE4))
  ∧ value (HidMapper0.getZmkKeyName (fun _ _ => Some "Ctrl") (hid 0x07 0xE4))
    = Some "CTRL".
Proof.
  split; [|vm_compute; reflexivity].
  apply (X5_same_label_same_name (fun _ _ => Some "Ctrl")
           (hid 0x07 0xE0) (hid 0x07 0xE4)).
  - left. vm_compute; reflexivity.
  - left. vm_compute; reflexivity.
  - reflexivity.
Defined.

(** no key of a table given by its entries has a property that no entry
    key has *)
Lemma list_to_map_no_key {V : Type} (P : string → bool)
    (l : list (string * V)) (k : string) :
  Forall (fun e => P e.1 = false) l → P k = true →
  (list_to_map l : gmap string V) !! k = None.
Proof.
  intros F Hk. apply not_elem_of_list_to_map_1.
  intros (e & -> & He)%list_elem_of_fmap.
  rewrite Forall_forall in F. rewrite (F _ He) in Hk. discriminate.
Qed.

Lemma letters_not_overridden (label : string) :
  JS.testSingleUpper label = true →
  HidMapper.KEY_NAME_OVERRIDES !! label = None
  ∧ HidMapper0.KEY_NAME_OVERRIDES !! label = None.
Proof.
  intros H. split;
    (apply (list_to_map_no_key JS.testSingleUpper); [|exact H]);
    repeat constructor.
Qed.

(** X6. No override shadows a letter: on a handled page, a usage whose
    label is a single letter of [A-Z] is named by that letter (in the
    source with the modifier table, outside the modifier range), and its
    key code has category letter and the letter as label. *)
Theorem X6_letters_as_they_are (db : Z → Z → option string) (usage : Z)
    (c : ascii) :
  handledPage (hid_usage_page_and_id_from_usage usage).1 →
  db (hid_usage_page_and_id_from_usage usage).1
     (hid_usage_page_and_id_from_usage usage).2 = Some (String c "") →
  JS.isUpper c = true →
  value (HidMapper0.getZmkKeyName db usage) = Some (String c "")
  ∧ value (HidMapper0.getKeyCode db usage)
    = Some {| Types.hidUsage := usage; Types.zmkName := String c "";
              Types.label := String c ""; Types.category := Types.KLetter |}
  ∧ (¬ inModifierRange (hid_usage_page_and_id_from_usage usage).1
         (hid_usage_page_and_id_from_usage usage).2 →
     value (HidMapper.getZmkKeyName db usage) = Some (String c "")
     ∧ value (HidMapper.getKeyCode db usage)
       = Some {| Types.hidUsage := usage; Types.zmkName := String c "";
                 Types.label := String c "";
                 Types.category := Types.KLetter |}).
Proof.
  intros Hpage Hdb Hc.
  destruct (label_path db usage Hpage) as [A A0].
  assert (U : JS.testSingleUpper (String c "") = true) by exact Hc.
  destruct (letters_not_overridden _ U) as [O O0].
  assert (K : HidMapper.categorizeKey (String c "") = Types.KLetter).
  { unfold HidMapper.categorizeKey. now rewrite U. }
  rewrite Hdb, O0, U in A0. cbn [JS.isEmpty JS.falsy negb] in A0.
  split; [exact A0|]. split.
  - rewrite getKeyCode0_value, A0, Hdb. cbn [JS.isEmpty JS.orElse].
    now rewrite <- K.
  - intros Hmod. specialize (A Hmod). rewrite Hdb, O, U in A. cbn [JS.isEmpty JS.falsy negb] in A.
    split; [exact A|].
    rewrite getKeyCode_value, A, Hdb. cbn [JS.isEmpty JS.orElse].
    now rewrite <- K.
Qed.

Lemma X6_letters_as_they_are_witness :
  value (HidMapper.getZmkKeyName sampleLabels (hid 0x07 0x04)) = Some "A"
  ∧ value (HidMapper0.getZmkKeyName sampleLabels (hid 0x07 0x04)) = Some "A".
Proof.
  assert (P : handledPage (hid_usage_page_and_id_from_usage (hid 0x07 0x04)).1)
    by (left; vm_compute; reflexivity).
  assert (M : ¬ inModifierRange
                (hid_usage_page_and_id_from_usage (hid 0x07 0x04)).1
                (hid_usage_page_and_id_from_usage (hid 0x07 0x04)).2)
    by (intros [_ [H _]]; vm_compute in H; now apply H).
  destruct (X6_letters_as_they_are sampleLabels (hid 0x07 0x04) "A"%char
              P eq_refl eq_refl) as (A0 & _ & A).
  split; [exact (proj1 (A M)) | exact A0].
Defined.

Lemma override_entries :
  (∀ label name : string,
     HidMapper.KEY_NAME_OVERRIDES !! label = Some name →
     label ≠ "" ∧ name ≠ "")
  ∧ (∀ label name : string,
       HidMapper0.KEY_NAME_OVERRIDES !! label = Some name →
       label ≠ "" ∧ name ≠ "").
Proof.
  split; intros label name H; apply elem_of_list_to_map_2 in H;
    revert H;
    (match goal with
     | |- (label, name) ∈ ?l → _ =>
         assert (F : Forall (fun e => e.1 ≠ "" ∧ e.2 ≠ "") l)
           by (repeat constructor; discriminate)
     end);
    intros H; rewrite Forall_forall in F; exact (F _ H).
Qed.

(** X7. No entry of the override table is dead: neither a key nor a
    value is empty, so on a handled page a usage whose label is a key of
    the table is named by the table's value (in the source with the
    modifier table, outside the modifier range). *)
Theorem X7_overrides_apply (db : Z → Z → option string) (usage : Z)
    (label : string) :
  handledPage (hid_usage_page_and_id_from_usage usage).1 →
  db (hid_usage_page_and_id_from_usage usage).1
     (hid_usage_page_and_id_from_usage usage).2 = Some label →
  (∀ name : string,
     HidMapper0.KEY_NAME_OVERRIDES !! label = Some name →
     name ≠ ""
     ∧ value (HidMapper0.getZmkKeyName db usage) = Some name)
  ∧ (∀ name : string,
       HidMapper.KEY_NAME_OVERRIDES !! label = Some name →
       ¬ inModifierRange (hid_usage_page_and_id_from_usage usage).1
           (hid_usage_page_and_id_from_usage usage).2 →
       name ≠ ""
       ∧ value (HidMapper.getZmkKeyName db usage) = Some name).
Proof.
  intros Hpage Hdb.
  destruct (label_path db usage Hpage) as [A A0].
  destruct override_entries as [E E0].
  split.
  - intros name Hn. destruct (E0 _ _ Hn) as [Hl Hv]. split; [exact Hv|].
    rewrite A0, Hdb, (isEmpty_false _ Hl), Hn. cbn [JS.falsy].
    now rewrite (isEmpty_false _ Hv).
  - intros name Hn Hmod. destruct (E _ _ Hn) as [Hl Hv]. split; [exact Hv|].
    rewrite (A Hmod), Hdb, (isEmpty_false _ Hl), Hn. cbn [JS.falsy].
    now rewrite (isEmpty_false _ Hv).
Qed.

Lemma X7_overrides_apply_witness :
  value (HidMapper.getZmkKeyName sampleLabels (hid 0x07 0x29)) = Some "ESC"
  ∧ value (HidMapper0.getZmkKeyName (fun _ _ => Some "Keyboard Page Up")
             (hid 0x07 0x4B)) = Some "PG_UP".
Proof.
  split.
  - apply (proj2 (X7_overrides_apply sampleLabels (hid 0x07 0x29) "ESC"
                    (or_introl eq_refl) eq_refl) "ESC").
    + vm_compute; reflexivity.
    + intros [_ [H _]]. vm_compute in H. now apply H.
  - apply (proj1 (X7_overrides_apply (fun _ _ => Some "Keyboard Page Up")
                    (hid 0x07 0x4B) "Keyboard Page Up"
                    (or_introl eq_refl) eq_refl) "PG_UP").
    vm_compute; reflexivity.
Defined.

(** ** The form of fallback names *)

Lemma dropLeading_shape (s : string) :
  noDoubleUnderscore s = true →
  noDoubleUnderscore (JS.dropLeadingUnderscore s) = true
  ∧ JS.startsWithUnderscore (JS.dropLeadingUnderscore s) = false.
Proof.
  destruct s as [|c s]; [split; reflexivity|].
  cbn [noDoubleUnderscore JS.dropLeadingUnderscore].
  intros [H1 H2]%andb_true_iff.
  destruct (JS.isUnderscore c) eqn:U.
  - cbn [andb] in H1. apply negb_true_iff in H1. now split.
  - split; [|exact U]. cbn [noDoubleUnderscore]. now rewrite U, H2.
Qed.

Lemma dropTrailing_empty (s : string) :
  JS.dropTrailingUnderscore s = "" → s = "" ∨ s = "_".
Proof.
  destruct s as [|c [|d r]]; cbn; [tauto | | discriminate].
  destruct (JS.isUnderscore c) eqn:U; [|discriminate].
  intros _. right. apply Ascii.eqb_eq in U. now subst.
Qed.

Lemma dropTrailing_starts (s : string) :
  JS.startsWithUnderscore (JS.dropTrailingUnderscore s) = true →
  JS.startsWithUnderscore s = true.
Proof.
  destruct s as [|c [|d r]]; cbn; try (intros H; exact H).
  destruct (JS.isUnderscore c) eqn:U; cbn; [discriminate|].
  rewrite U. discriminate.
Qed.

Lemma dropTrailing_shape (s : string) :
  noDoubleUnderscore s = true →
  noDoubleUnderscore (JS.dropTrailingUnderscore s) = true
  ∧ lastIsUnderscore (JS.dropTrailingUnderscore s) = false.
Proof.
  induction s as [|c s IH]; [split; reflexivity|].
  cbn [noDoubleUnderscore]. intros [H1 H2]%andb_true_iff.
  destruct (IH H2) as [IH1 IH2].
  change (JS.dropTrailingUnderscore (String c s)) with
    (match s with
     | "" => if JS.isUnderscore c then "" else String c s
     | String _ _ => String c (JS.dropTrailingUnderscore s)
     end).
  destruct s as [|d r].
  - destruct (JS.isUnderscore c) eqn:U; [split; reflexivity|].
    cbn. now rewrite U.
  - split.
    + cbn [noDoubleUnderscore]. rewrite IH1, andb_true_r.
      apply negb_true_iff. apply negb_true_iff in H1.
      destruct (JS.isUnderscore c); [|reflexivity]. cbn [andb] in *.
      destruct (JS.startsWithUnderscore
                  (JS.dropTrailingUnderscore (String d r))) eqn:S;
        [|reflexivity].
      apply dropTrailing_starts in S. congruence.
    + destruct (JS.dropTrailingUnderscore (String d r)) as [|e t] eqn:D.
      * destruct (dropTrailing_empty _ D) as [[=] | [= -> ->]].
        cbn. apply negb_true_iff in H1. cbn in H1.
        now rewrite andb_true_r in H1.
      * exact IH2.
Qed.

Lemma upperChar_underscore (c : ascii) :
  JS.isUnderscore (JS.upperChar c) = JS.isUnderscore c.
Proof.
  destruct c as [[] [] [] [] [] [] [] []]; vm_compute; reflexivity.
Qed.

Lemma toUpperCase_shape (s : string) :
  noDoubleUnderscore (JS.toUpperCase s) = noDoubleUnderscore s
  ∧ JS.startsWithUnderscore (JS.toUpperCase s) = JS.startsWithUnderscore s
  ∧ lastIsUnderscore (JS.toUpperCase s) = lastIsUnderscore s.
Proof.
  induction s as [|c s (IH1 & IH2 & IH3)]; [repeat split|].
  unfold JS.toUpperCase in *. cbn [JS.mapChars].
  split; [|split].
  - cbn [noDoubleUnderscore]. now rewrite upperChar_underscore, IH1, IH2.
  - cbn. apply upperChar_underscore.
  - destruct s as [|d r]; [cbn; apply upperChar_underscore|].
    exact IH3.
Qed.

Lemma fallbackName_form (label : string) :
  keyNameForm (HidMapper.fallbackName label).
Proof.
  unfold keyNameForm, HidMapper.fallbackName, JS.trimUnderscoreEnds.
  set (l := JS.stripKeyboardPrefix label).
  split; [apply fallback_chain_keyName|].
  rewrite (proj1 (collapse_replace_runs l)).
  destruct (collapseRuns_shape l) as (Hf & _ & _).
  destruct (dropLeading_shape _ Hf) as [Hd Hs].
  destruct (dropTrailing_shape _ Hd) as [Ht Hl].
  destruct (toUpperCase_shape
              (JS.dropTrailingUnderscore
                 (JS.dropLeadingUnderscore
                    (KeymapGenerator.collapseRuns false l))))
    as (-> & -> & ->).
  split; [exact Ht|]. split; [|exact Hl].
  destruct (JS.startsWithUnderscore
              (JS.dropTrailingUnderscore
                 (JS.dropLeadingUnderscore
                    (KeymapGenerator.collapseRuns false l)))) eqn:S;
    [|reflexivity].
  apply dropTrailing_starts in S. congruence.
Qed.



Lemma keyNameChar_fixed (c : ascii) :
  isKeyNameChar c = true →
  (if JS.isAlnum c then c else "_"%char) = c ∧ JS.upperChar c = c.
Proof.
  destruct c as [[] [] [] [] [] [] [] []]; vm_compute;
    first [discriminate | split; reflexivity].
Qed.

Lemma stripKeyboardPrefix_keyName (s : string) :
  JS.allChars isKeyNameChar s = true → JS.stripKeyboardPrefix s = s.
Proof.
  intros H. unfold JS.stripKeyboardPrefix.
  destruct (String.prefix "Keyboard " s) eqn:P; [|reflexivity].
  destruct s as [|a [|b r]]; cbn [String.prefix] in P; try discriminate P.
  - destruct (ascii_dec "K" a); discriminate P.
  - destruct (ascii_dec "K" a); [|discriminate P].
    destruct (ascii_dec "e" b); [|discriminate P]. subst.
    cbn in H. discriminate H.
Qed.

Lemma keyNameForm_steps (s : string) :
  (JS.allChars isKeyNameChar s = true →
   JS.replaceNonAlnum s = s ∧ JS.toUpperCase s = s)
  ∧ (noDoubleUnderscore s = true → JS.collapseUnderscores s = s)
  ∧ (lastIsUnderscore s = false → JS.dropTrailingUnderscore s = s).
Proof.
  induction s as [|c s (IH1 & IH2 & IH3)]; [repeat split|].
  split; [|split].
  - cbn [JS.allChars]. intros [Hc Hs]%andb_true_iff.
    destruct (keyNameChar_fixed c Hc) as [E1 E2].
    destruct (IH1 Hs) as [R U]. unfold JS.toUpperCase in *.
    cbn [JS.replaceNonAlnum JS.mapChars]. now rewrite E1, E2, R, U.
  - cbn [noDoubleUnderscore JS.collapseUnderscores].
    intros [H1 H2]%andb_true_iff. apply negb_true_iff in H1.
    now rewrite H1, (IH2 H2).
  - change (JS.dropTrailingUnderscore (String c s)) with
      (match s with
       | "" => if JS.isUnderscore c then "" else String c s
       | String _ _ => String c (JS.dropTrailingUnderscore s)
       end).
    destruct s as [|d r]; cbn [lastIsUnderscore].
    + now intros ->.
    + intros H. now rewrite (IH3 H).
Qed.

(** X9. A label that is already in key-name form is left as it is by the
    chain of replacements, and the chain is idempotent: applied to one of
    its own results it changes nothing. *)
Theorem X9_fallback_fixed_points (s label : string) :
  (keyNameForm s →
   HidMapper.fallbackName s = s ∧ HidMapper0.fallbackName s = s)
  ∧ HidMapper.fallbackName (HidMapper.fallbackName label)
    = HidMapper.fallbackName label
  ∧ HidMapper0.fallbackName (HidMapper0.fallbackName label)
    = HidMapper0.fallbackName label.
Proof.
  assert (F : ∀ t : string, keyNameForm t → HidMapper.fallbackName t = t).
  { intros t (Hc & Hd & Hs & Hl).
    destruct (keyNameForm_steps t) as (A & B & C).
    destruct (A Hc) as [R U].
    unfold HidMapper.fallbackName, JS.trimUnderscoreEnds.
    rewrite (stripKeyboardPrefix_keyName t Hc), R, (B Hd).
    assert (L : JS.dropLeadingUnderscore t = t).
    { destruct t as [|c t]; [reflexivity|]. cbn in Hs |- *. now rewrite Hs. }
    now rewrite L, (C Hl), U. }
  split; [|split].
  - intros H. split; exact (F s H).
  - apply F, fallbackName_form.
  - apply F, fallbackName_form.
Qed.

Lemma X9_fallback_fixed_points_witness :
  keyNameForm "PG_UP" ∧ HidMapper.fallbackName "PG_UP" = "PG_UP".
Proof.
  assert (K : keyNameForm "PG_UP") by (repeat split).
  split; [exact K|].
  exact (proj1 (proj1 (X9_fallback_fixed_points "PG_UP" "") K)).
Defined.

(** ** Callers of the resolver at the edges *)

Lemma name_needs_label (db : Z → Z → option string) (usage : Z)
    (name : string) :
  (value (HidMapper0.getZmkKeyName db usage) = Some name →
   ∃ label : string,
     db (hid_usage_page_and_id_from_usage usage).1
        (hid_usage_page_and_id_from_usage usage).2 = Some label
     ∧ label ≠ "")
  ∧ (value (HidMapper.getZmkKeyName db usage) = Some name →
     ¬ inModifierRange (hid_usage_page_and_id_from_usage usage).1
         (hid_usage_page_and_id_from_usage usage).2 →
     ∃ label : string,
       db (hid_usage_page_and_id_from_usage usage).1
          (hid_usage_page_and_id_from_usage usage).2 = Some label
       ∧ label ≠ "").
Proof.
  destruct (decide ((hid_usage_page_and_id_from_usage usage).1 = 0x07
                    ∨ (hid_usage_page_and_id_from_usage usage).1 = 0x0C))
    as [Hp | Hp].
  - destruct (label_path db usage Hp) as [A A0]. split.
    + rewrite A0.
      destruct (db _ _) as [[|c l]|]; cbn [JS.isEmpty]; try discriminate.
      intros _. eexists. split; [reflexivity | discriminate].
    + intros H Hmod. rewrite (A Hmod) in H.
      destruct (db _ _) as [[|c l]|]; cbn [JS.isEmpty] in H;
        try discriminate H.
      eexists. split; [reflexivity | discriminate].
  - destruct (other_pages db usage Hp) as [-> ->]. split; discriminate.
Qed.

(** X10. The label of a key code is empty only for a modifier usage:
    in the source with the modifier table, a key code with an empty label
    belongs to the modifier range of the Keyboard page (where the name
    does not come from the database); in the other source no key code has
    an empty label. *)
Theorem X10_empty_label_only_for_modifiers (db : Z → Z → option string)
    (usage : Z) (kc : Types.KeyCode) :
  (value (HidMapper.getKeyCode db usage) = Some kc →
   Types.label kc = "" →
   inModifierRange (hid_usage_page_and_id_from_usage usage).1
     (hid_usage_page_and_id_from_usage usage).2)
  ∧ (value (HidMapper0.getKeyCode db usage) = Some kc →
     Types.label kc ≠ "").
Proof.
  rewrite getKeyCode_value, getKeyCode0_value. split.
  - destruct (value (HidMapper.getZmkKeyName db usage)) as [name|] eqn:E;
      [|discriminate].
    destruct (JS.isEmpty name); [discriminate|].
    intros [= <-]. cbn [Types.label]. intros Hl.
    destruct (decide ((hid_usage_page_and_id_from_usage usage).1 = 0x07
                      ∧ 0xE0 ≤ (hid_usage_page_and_id_from_usage usage).2
                        ≤ 0xE7))
      as [Hm | Hm]; [exact Hm|].
    destruct (proj2 (name_needs_label db usage name) E Hm) as (l & Hd & Hne).
    unfold hid_usage_page_and_id_from_usage in Hd. cbn [fst snd] in Hd.
    rewrite Hd in Hl. cbn in Hl. rewrite (isEmpty_false _ Hne) in Hl.
    contradiction.
  - destruct (value (HidMapper0.getZmkKeyName db usage)) as [name|] eqn:E;
      [|discriminate].
    destruct (JS.isEmpty name); [discriminate|].
    intros [= <-]. cbn [Types.label].
    destruct (proj1 (name_needs_label db usage name) E) as (l & Hd & Hne).
    unfold hid_usage_page_and_id_from_usage in Hd. cbn [fst snd] in Hd.
    rewrite Hd. cbn. now rewrite (isEmpty_false _ Hne).
Qed.

Lemma X10_empty_label_only_for_modifiers_witness :
  value (HidMapper.getKeyCode noLabels (hid 0x07 0xE2))
  = Some {| Types.hidUsage := hid 0x07 0xE2; Types.zmkName := "LALT";
            Types.label := ""; Types.category := Types.KModifier |}
  ∧ inModifierRange (hid_usage_page_and_id_from_usage (hid 0x07 0xE2)).1
      (hid_usage_page_and_id_from_usage (hid 0x07 0xE2)).2.
Proof.
  assert (E : value (HidMapper.getKeyCode noLabels (hid 0x07 0xE2))
              = Some {| Types.hidUsage := hid 0x07 0xE2;
                        Types.zmkName := "LALT"; Types.label := "";
                        Types.category := Types.KModifier |})
    by (vm_compute; reflexivity).
  split; [exact E|].
  exact (proj1 (X10_empty_label_only_for_modifiers noLabels (hid 0x07 0xE2) _)
           E eq_refl).
Defined.

(** X11. On a page that is neither the Keyboard nor the Consumer page,
    [getKeyCode] returns null and [isModifier] answers false, and neither
    consults the database.  Both sources. *)
Theorem X11_other_pages_callers (db : Z → Z → option string) (usage : Z) :
  ¬ handledPage (hid_usage_page_and_id_from_usage usage).1 →
  HidMapper.getKeyCode db usage = Log None []
  ∧ HidMapper.isModifier db usage = Log false []
  ∧ HidMapper0.getKeyCode db usage = Log None []
  ∧ HidMapper0.isModifier db usage = Log false [].
Proof.
  intros H. destruct (other_pages db usage H) as [E E0].
  unfold HidMapper.getKeyCode, HidMapper.isModifier, HidMapper0.getKeyCode,
    HidMapper0.isModifier.
  rewrite E, E0. repeat split.
Qed.

Lemma X11_other_pages_callers_witness :
  HidMapper.getKeyCode bangLabels 0xFFFF = Log None []
  ∧ HidMapper.isModifier bangLabels 0xFFFF = Log false [].
Proof.
  assert (H : ¬ handledPage (hid_usage_page_and_id_from_usage 0xFFFF).1)
    by (intros [H | H]; vm_compute in H; discriminate).
  pose proof (X11_other_pages_callers bangLabels 0xFFFF H) as (A & B & _).
  split; [exact A | exact B].
Defined.

(** ** The formatter and the registry *)

Lemma registry_values :
  BEHAVIORS !! 0 = Some {| BehaviorMapper.id := 0; code := "trans";
                           displayName := "Transparent"; paramCount := 0;
                           description := "Pass through to lower layer" |}
  ∧ getParamCount (fun k => BEHAVIORS !! k) 1 = 1
  ∧ getParamCount (fun k => BEHAVIORS !! k) 2 = 2
  ∧ getParamCount (fun k => BEHAVIORS !! k) 3 = 2
  ∧ getParamCount (fun k => BEHAVIORS !! k) 4 = 1
  ∧ getParamCount (fun k => BEHAVIORS !! k) 5 = 1
  ∧ getParamCount (fun k => BEHAVIORS !! k) 6 = 1.
Proof. repeat (split; [vm_compute; reflexivity|]). vm_compute; reflexivity. Qed.

(** X12. [formatBinding] asks the resolver about the binding's own
    parameters only, and at most as many times as the behavior has
    parameters; its result depends on the resolver through those answers
    alone. *)
Theorem X12_resolver_calls (r r' : Z → option string) (b : Binding) :
  (∀ v : Z, v ∈ calls (format r b) → v ∈ parameters b)
  ∧ Z.of_nat (length (calls (format r b)))
    ≤ getParamCount (fun k => BEHAVIORS !! k) (behaviorId b)
  ∧ ((∀ v : Z, v ∈ parameters b → r v = r' v) → format r b = format r' b).
Proof.
  destruct registry_values as (_ & P1 & P2 & P3 & P4 & P5 & P6).
  unfold parameters.
  destruct (decide (0 ≤ behaviorId b ≤ 6)) as [Hin | Hout].
  - destruct (registered_cases _ Hin) as [H|[H|[H|[H|[H|[H|H]]]]]].
    + rewrite !(format_trans _ _ H), H. cbn [calls length].
      split; [intros v Hv; inversion Hv|]. split; [vm_compute; discriminate|].
      reflexivity.
    + rewrite !(format_kp _ _ H), H, P1. cbn [calls length].
      split; [intros v ->%list_elem_of_singleton; left|].
      split; [lia|]. intros E. now rewrite (E (param1 b)) by left.
    + rewrite !(format_mt _ _ H), H, P2.
      destruct (param2 b) as [v2|]; cbn [calls length].
      * split; [intros v Hv; exact Hv|]. split; [lia|].
        intros E. rewrite (E (param1 b)) by left.
        now rewrite (E v2) by (right; left).
      * split; [intros v Hv; exact Hv|]. split; [lia|].
        intros E. now rewrite (E (param1 b)) by left.
    + rewrite !(format_lt _ _ H), H, P3.
      destruct (param2 b) as [v2|]; cbn [calls length].
      * split; [intros v ->%list_elem_of_singleton; right; left|].
        split; [lia|]. intros E. now rewrite (E v2) by (right; left).
      * split; [intros v Hv; inversion Hv|]. split; [lia | reflexivity].
    + destruct (format_layer_or_bt r b) as (F & _ & _).
      destruct (format_layer_or_bt r' b) as (F' & _ & _).
      rewrite (F H), (F' H), H, P4. cbn [calls length].
      split; [intros v Hv; inversion Hv|]. split; [lia | reflexivity].
    + destruct (format_layer_or_bt r b) as (_ & F & _).
      destruct (format_layer_or_bt r' b) as (_ & F' & _).
      rewrite (F H), (F' H), H, P5. cbn [calls length].
      split; [intros v Hv; inversion Hv|]. split; [lia | reflexivity].
    + destruct (format_layer_or_bt r b) as (_ & _ & F).
      destruct (format_layer_or_bt r' b) as (_ & _ & F').
      rewrite (F H), (F' H), H, P6. cbn [calls length].
      split; [intros v Hv; inversion Hv|]. split; [lia | reflexivity].
  - rewrite !(format_unknown _ _ Hout). cbn [calls length].
    split; [intros v Hv; inversion Hv|]. split; [|reflexivity].
    unfold getParamCount. rewrite (BEHAVIORS_unknown _ Hout). lia.
Qed.

Lemma X12_resolver_calls_witness :
  format mockGetKeyName (binding 2 0xE0 (Some 0x04) 0)
  = format (fun v => if v =? 0xE0 then Some "LCTRL"
                     else if v =? 0x04 then Some "Q" else Some "other")
      (binding 2 0xE0 (Some 0x04) 0).
Proof.
  apply (proj2 (proj2 (X12_resolver_calls mockGetKeyName
                         (fun v => if v =? 0xE0 then Some "LCTRL"
                                   else if v =? 0x04 then Some "Q"
                                   else Some "other")
                         (binding 2 0xE0 (Some 0x04) 0)))).
  intros v Hv. unfold parameters in Hv. cbn [binding param1 param2] in Hv.
  apply elem_of_cons in Hv as [-> | Hv]; [vm_compute; reflexivity|].
  apply list_elem_of_singleton in Hv as ->. vm_compute; reflexivity.
Defined.

Lemma registry_entry (k : Z) (b : Behavior) :
  BEHAVIORS !! k = Some b → In (k, b) BEHAVIORS_entries.
Proof.
  intros H. apply elem_of_list_to_map_2 in H. now apply list_elem_of_In.
Qed.

(** X13. The registry is consistent: every behavior is stored under its
    own id, which lies in 0..6; its parameter count is 0, 1 or 2, and 0
    for [trans] only; and no two behaviors share a code, so
    [getBehaviorCode] is injective on registered ids.  [getParamCount] is
    0 exactly for [trans] and for unregistered ids. *)
Theorem X13_registry_consistent (k k' : Z) (b b' : Behavior) :
  (BEHAVIORS !! k = Some b →
   BehaviorMapper.id b = k ∧ 0 ≤ k ≤ 6 ∧ 0 ≤ paramCount b ≤ 2
   ∧ (paramCount b = 0 ↔ code b = "trans"))
  ∧ (BEHAVIORS !! k = Some b → BEHAVIORS !! k' = Some b' →
     code b = code b' → k = k')
  ∧ (getParamCount (fun i => BEHAVIORS !! i) k = 0
     ↔ k = 0 ∨ ¬ (0 ≤ k ≤ 6)).
Proof.
  split; [|split].
  - intros H%registry_entry. cbn in H.
    repeat (destruct H as [[= <- <-] | H];
            [cbn; repeat split; try lia; discriminate|]).
    destruct H.
  - intros H%registry_entry H'%registry_entry. cbn in H, H'.
    repeat (destruct H as [[= <- <-] | H];
            [repeat (destruct H' as [[= <- <-] | H'];
                     [cbn; first [reflexivity | discriminate]|]);
             destruct H'|]).
    destruct H.
  - destruct registry_values as (P0 & P1 & P2 & P3 & P4 & P5 & P6).
    destruct (decide (0 ≤ k ≤ 6)) as [Hin | Hout].
    + destruct (registered_cases _ Hin) as [->|[->|[->|[->|[->|[->| ->]]]]]];
        rewrite ?P1, ?P2, ?P3, ?P4, ?P5, ?P6;
        first [ split; [intros _; now left | intros _; unfold getParamCount;
                                              now rewrite P0]
              | split; [discriminate | intros [H | H]; [discriminate H | lia]] ].
    + unfold getParamCount. rewrite (BEHAVIORS_unknown _ Hout).
      split; [intros _; now right | reflexivity].
Qed.

Lemma X13_registry_consistent_witness :
  BEHAVIORS !! 3
  = Some {| BehaviorMapper.id := 3; code := "lt"; displayName := "Layer-Tap";
            paramCount := 2;
            description := "Layer when held, key when tapped" |}
  ∧ 0 ≤ 3 ≤ 6.
Proof.
  assert (E : BEHAVIORS !! 3
              = Some {| BehaviorMapper.id := 3; code := "lt";
                        displayName := "Layer-Tap"; paramCount := 2;
                        description := "Layer when held, key when tapped" |})
    by (vm_compute; reflexivity).
  split; [exact E|].
  pose proof (X13_registry_consistent 3 3
                {| BehaviorMapper.id := 3; code := "lt";
                   displayName := "Layer-Tap"; paramCount := 2;
                   description := "Layer when held, key when tapped" |}
                {| BehaviorMapper.id := 3; code := "lt";
                   displayName := "Layer-Tap"; paramCount := 2;
                   description := "Layer when held, key when tapped" |})
    as (A & _).
  exact (proj1 (proj2 (A E))).
Defined.







(** ** What a copy of the registry shares *)

(** X16. [getAllBehaviors] copies the [Map], not the records: in every
    store a caller can reach, each registered id maps, in a fresh copy,
    to a record of the registry itself, and a write to the [code] field of
    that record shows through [getBehaviorCode]. *)
Theorem X16_copy_shares_records (σ : gmap positive object)
    (R : gset positive) (k : Z) (s : string) :
  rtc caller_step (initial, ∅) (σ, R) →
  0 ≤ k ≤ 6 →
  ∃ rec : positive,
    Map_get (getAllBehaviors σ).2 (getAllBehaviors σ).1 k = Some rec
    ∧ Map_get (getAllBehaviors σ).2 BEHAVIORS_ref k = Some rec
    ∧ getBehaviorCode
        (BEHAVIORS_get (writeCode rec s (getAllBehaviors σ).2)) k
      = Some s.
Proof.
  intros Hreach Hk.
  pose proof (intact_reachable _ _ Hreach intact_initial) as HI.
  cbn [fst snd] in HI.
  assert (HI' : registry_intact (getAllBehaviors σ).2
                  ({[ (getAllBehaviors σ).1 ]} ∪ R)).
  { apply (intact_step σ _ R _); [constructor | exact HI]. }
  destruct HI' as (Hσ' & _ & _).
  destruct initial_lookups as [Href Hrec].
  assert (Hreg : entriesOf (getAllBehaviors σ).2 BEHAVIORS_ref
                 = list_to_map record_refs).
  { unfold entriesOf. now rewrite (Hσ' _ BEHAVIORS_ref_in_dom), Href. }
  assert (Hent : entriesOf (getAllBehaviors σ).2 (getAllBehaviors σ).1
                 = list_to_map record_refs).
  { destruct HI as (Hσ & _ & _).
    unfold getAllBehaviors, entriesOf at 1; cbn [fst snd].
    rewrite lookup_insert_eq. unfold entriesOf.
    now rewrite (Hσ _ BEHAVIORS_ref_in_dom), Href. }
  set (σ' := (getAllBehaviors σ).2) in *.
  assert (Hex : ∃ rec b, (list_to_map record_refs : gmap Z positive) !! k
                         = Some rec
                         ∧ initial !! rec = Some (BehaviorObj b)
                         ∧ rec ≠ BEHAVIORS_ref ∧ rec ∈ dom initial).
  { destruct (registered_cases k Hk) as [->|[->|[->|[->|[->|[->| ->]]]]]];
      (eexists; eexists; split; [vm_compute; reflexivity|];
       split; [vm_compute; reflexivity|];
       split; [discriminate | apply elem_of_dom; vm_compute; eauto]). }
  destruct Hex as (rec & b & Hrefs & Hb & Hne & Hdom).
  exists rec. unfold Map_get. rewrite Hent, Hreg.
  split; [exact Hrefs|]. split; [exact Hrefs|].
  unfold getBehaviorCode, BEHAVIORS_get, Map_get, entriesOf, writeCode.
  rewrite (Hσ' _ Hdom), Hb.
  rewrite lookup_insert_ne by exact Hne.
  rewrite (Hσ' _ BEHAVIORS_ref_in_dom), Href, Hrefs.
  cbn [mbind option_bind]. unfold deref. now rewrite lookup_insert_eq.
Qed.

Lemma X16_copy_shares_records_witness :
  ∃ rec : positive,
    Map_get copied.2 copied.1 1 = Some rec
    ∧ Map_get copied.2 BEHAVIORS_ref 1 = Some rec
    ∧ getBehaviorCode (BEHAVIORS_get (writeCode rec "zz" copied.2)) 1
      = Some "zz".
Proof.
  apply (X16_copy_shares_records initial ∅ 1 "zz"); [apply rtc_refl | lia].
Defined.

(** ** Database look-ups *)

Lemma getZmkKeyName_calls (db : Z → Z → option string) (usage : Z) :
  (calls (HidMapper.getZmkKeyName db usage) = []
   ∨ calls (HidMapper.getZmkKeyName db usage)
     = [hid_usage_page_and_id_from_usage usage])
  ∧ (calls (HidMapper0.getZmkKeyName db usage) = []
     ∨ calls (HidMapper0.getZmkKeyName db usage)
       = [hid_usage_page_and_id_from_usage usage]).
Proof.
  unfold HidMapper.getZmkKeyName, HidMapper0.getZmkKeyName.
  destruct (hid_usage_page_and_id_from_usage usage) as [page id].
  split.
  - destruct (negb (page =? _) && negb (page =? _)); [now left|].
    destruct ((page =? _) && (0xE0 <=? id) && (id <=? 0xE7)); [now left|].
    right. unfold HidMapper.getLabel, call, bind. cbn [value calls fst snd].
    destruct (db page id) as [label|]; [|reflexivity].
    destruct (JS.isEmpty label); [reflexivity|].
    destruct (negb (JS.falsy (HidMapper.KEY_NAME_OVERRIDES !! label)));
      [reflexivity|].
    now destruct (JS.testSingleUpper label).
  - destruct (negb (page =? _) && negb (page =? _)); [now left|].
    right. unfold HidMapper0.getLabel, call, bind. cbn [value calls fst snd].
    destruct (db page id) as [label|]; [|reflexivity].
    destruct (JS.isEmpty label); [reflexivity|].
    destruct (negb (JS.falsy (HidMapper0.KEY_NAME_OVERRIDES !! label)));
      [reflexivity|].
    now destruct (JS.testSingleUpper label).
Qed.

(** X17. The methods of [HidMapper] look up no usage but the one they
    are asked about: every database call of [getZmkKeyName], [isModifier]
    and [getKeyCode] is for the page and id of the given usage;
    [getZmkKeyName] and [isModifier] make at most one call, [getKeyCode]
    at most two.  Both sources. *)
Theorem X17_database_calls (db : Z → Z → option string) (usage : Z) :
  (∀ q : Z * Z,
     q ∈ calls (HidMapper.getZmkKeyName db usage)
     ∨ q ∈ calls (HidMapper.isModifier db usage)
     ∨ q ∈ calls (HidMapper.getKeyCode db usage)
     ∨ q ∈ calls (HidMapper0.getZmkKeyName db usage)
     ∨ q ∈ calls (HidMapper0.isModifier db usage)
     ∨ q ∈ calls (HidMapper0.getKeyCode db usage) →
     q = hid_usage_page_and_id_from_usage usage)
  ∧ (length (calls (HidMapper.getZmkKeyName db usage)) ≤ 1)%nat
  ∧ (length (calls (HidMapper.isModifier db usage)) ≤ 1)%nat
  ∧ (length (calls (HidMapper.getKeyCode db usage)) ≤ 2)%nat
  ∧ (length (calls (HidMapper0.getZmkKeyName db usage)) ≤ 1)%nat
  ∧ (length (calls (HidMapper0.isModifier db usage)) ≤ 1)%nat
  ∧ (length (calls (HidMapper0.getKeyCode db usage)) ≤ 2)%nat.
Proof.
  set (here := hid_usage_page_and_id_from_usage usage).
  assert (M : calls (HidMapper.isModifier db usage)
              = calls (HidMapper.getZmkKeyName db usage)).
  { unfold HidMapper.isModifier, bind. cbn [calls].
    destruct (value (HidMapper.getZmkKeyName db usage)) as [n|];
      [destruct (JS.isEmpty n)|]; apply app_nil_r. }
  assert (M0 : calls (HidMapper0.isModifier db usage)
               = calls (HidMapper0.getZmkKeyName db usage)).
  { unfold HidMapper0.isModifier, bind. cbn [calls].
    destruct (value (HidMapper0.getZmkKeyName db usage)) as [n|];
      [destruct (JS.isEmpty n)|]; apply app_nil_r. }
  assert (K : calls (HidMapper.getKeyCode db usage)
              = calls (HidMapper.getZmkKeyName db usage)
              ∨ calls (HidMapper.getKeyCode db usage)
                = (calls (HidMapper.getZmkKeyName db usage) ++ [here])%list).
  { unfold HidMapper.getKeyCode, bind. cbn [calls].
    destruct (value (HidMapper.getZmkKeyName db usage)) as [n|];
      [destruct (JS.isEmpty n)|]; try (left; apply app_nil_r).
    right. subst here.
    now destruct (hid_usage_page_and_id_from_usage usage). }
  assert (K0 : calls (HidMapper0.getKeyCode db usage)
               = calls (HidMapper0.getZmkKeyName db usage)
               ∨ calls (HidMapper0.getKeyCode db usage)
                 = (calls (HidMapper0.getZmkKeyName db usage) ++ [here])%list).
  { unfold HidMapper0.getKeyCode, bind. cbn [calls].
    destruct (value (HidMapper0.getZmkKeyName db usage)) as [n|];
      [destruct (JS.isEmpty n)|]; try (left; apply app_nil_r).
    right. subst here.
    now destruct (hid_usage_page_and_id_from_usage usage). }
  destruct (getZmkKeyName_calls db usage) as [Z1 Z0].
  fold here in Z1, Z0. rewrite M, M0.
  assert (In1 : ∀ l : list (Z * Z), l = [] ∨ l = [here] →
                (∀ q, q ∈ l → q = here)
                ∧ (∀ q, q ∈ (l ++ [here])%list → q = here)
                ∧ (length l ≤ 1)%nat
                ∧ (length (l ++ [here])%list ≤ 2)%nat).
  { intros l [-> | ->]; cbn; repeat split; try lia;
      intros q Hq; repeat (apply elem_of_cons in Hq as [-> | Hq]; [reflexivity|]);
      now apply elem_of_nil in Hq. }
  destruct (In1 _ Z1) as (A1 & A2 & A3 & A4).
  destruct (In1 _ Z0) as (B1 & B2 & B3 & B4).
  split.
  - intros q [H | [H | [H | [H | [H | H]]]]]; auto.
    + destruct K as [-> | ->] in H; auto.
    + destruct K0 as [-> | ->] in H; auto.
  - repeat split; try assumption.
    + destruct K as [-> | ->]; lia.
    + destruct K0 as [-> | ->]; lia.
Qed.

Lemma X17_database_calls_witness :
  calls (HidMapper.getKeyCode sampleLabels (hid 0x07 0x04))
  = [(0x07, 0x04); (0x07, 0x04)]
  ∧ (length (calls (HidMapper.getKeyCode sampleLabels (hid 0x07 0x04))) ≤ 2)%nat.
Proof.
  split; [vm_compute; reflexivity|].
  exact (proj1 (proj2 (proj2 (proj2
           (X17_database_calls sampleLabels (hid 0x07 0x04)))))).
Defined.
